(** * PID-controlled train intercepting a falling object

    Shallow embedding of the simulation core
    ([FreeFall_Object/scripts/generate_random_scenarios.py]) and of the
    consumers of its dataset ([animate_realtime.py],
    [analyze_random_scenarios.py], [analyze_comprehensive.py]).

    Number model.  The Python code computes with IEEE-754 doubles.  Every
    double is a rational number, and the development idealises the
    arithmetic on them as exact arithmetic on canonical rationals [Qc]:
    rounding, overflow, infinities and NaN are not modelled.  A Python
    float division by zero raises [ZeroDivisionError], and is modelled so
    where the script can reach one ([simulation_time / dt]); a numpy
    division by zero yields an infinity or a NaN, where [Qc] yields 0, so
    the theorems about values that depend on [F_net / m] are stated for a
    mass other than 0.  The numpy functions [deg2rad], [tan], [cos] and
    [sin] are taken as arbitrary functions [Qc -> Qc]; no theorem depends
    on a property of them. *)

From Stdlib Require Import QArith Qcanon Qround ZArith Lia Lqa.
From Stdlib Require Import Ascii String DecimalString DecimalNat DecimalFacts.
From stdpp Require Import base numbers list strings sorting.

Local Open Scope Qc_scope.

(** ** Numbers *)

(** A decimal literal of the source, [dec n d] is the rational [n/d]. *)
Definition dec (n : Z) (d : positive) : Qc := Q2Qc (n # d).

(** Python's [int(x)] on a float: truncation toward zero. *)
Definition int (q : Qc) : Z := Z.quot (Qnum q) (Zpos (Qden q)).

(** Python's [abs]. *)
Definition abs (x : Qc) : Qc := if decide (x < 0) then - x else x.

(** The sign function the specification speaks of. *)
Definition sign (x : Qc) : Qc :=
  if decide (0 < x) then 1 else if decide (x < 0) then - 1 else 0.

(** The rational of a natural number (a numpy integer promoted to float). *)
Definition of_nat (k : nat) : Qc := Qc_of_Z (Z.of_nat k).

#[global] Instance Qc_inhabited : Inhabited Qc := populate 0.

(** Exceptions the modelled code can raise. *)
Inductive exn :=
  ZeroDivisionError | ValueError | IndexError | KeyError | OverflowError.

Inductive result (A : Type) : Type :=
| Ok (a : A)
| Raise (e : exn).
Arguments Ok {A} a.
Arguments Raise {A} e.

(** ** Data frames

    A pandas [DataFrame] of float columns: the ordered list of its named
    columns. *)
Definition DataFrame := list (string * list Qc).

(** [df[name].values]; [None] stands for the [KeyError] of a missing name. *)
Fixpoint column (name : string) (df : DataFrame) : option (list Qc) :=
  match df with
  | [] => None
  | (c, vals) :: rest => if decide (c = name) then Some vals else column name rest
  end.

(** Total version for columns known to exist. *)
Definition col (name : string) (df : DataFrame) : list Qc :=
  default [] (column name df).

(** ** The module-level constants and numpy's functions *)

Record Consts := {
  g : Qc;                (* gravity (m/s^2) *)
  dt : Qc;               (* time step (s) *)
  simulation_time : Qc;  (* seconds *)
  Kp : Qc;
  Ki : Qc;
  Kd : Qc;
  m : Qc;                (* train mass (kg) *)
  mu : Qc                (* friction coefficient *)
}.

(** The values written in [generate_random_scenarios.py]. *)
Definition module_consts : Consts := {|
  g := dec 981 100;
  dt := dec 2 100;
  simulation_time := dec 40 1;
  Kp := dec 45 1;
  Ki := dec 5 10;
  Kd := dec 25 1;
  m := dec 10 1;
  mu := dec 1 10
|}.

(** The module's constants with a run of 0.1 s, that is five steps: small
    enough to evaluate a whole run. *)
Definition short_consts : Consts := {|
  g := dec 981 100;
  dt := dec 2 100;
  simulation_time := dec 1 10;
  Kp := dec 45 1;
  Ki := dec 5 10;
  Kd := dec 25 1;
  m := dec 10 1;
  mu := dec 1 10
|}.

Record Numpy := {
  deg2rad : Qc -> Qc;
  tan : Qc -> Qc;
  cos : Qc -> Qc;
  sin : Qc -> Qc
}.

(** numpy restricted to the angle 0, where the four functions are exact:
    [deg2rad 0 = 0], [tan 0 = 0], [cos 0 = 1], [sin 0 = 0].  Used for
    concrete runs on a flat track. *)
Definition numpy_flat : Numpy := {|
  deg2rad := fun _ => 0;
  tan := fun _ => 0;
  cos := fun _ => 1;
  sin := fun _ => 0
|}.

(** ** generate_random_scenarios.py *)

Module GenerateRandomScenarios.

(** The arrays and the PID state that [simulate_scenario] mutates. *)
Record SimState := {
  train_position : list Qc;
  train_velocity : list Qc;
  train_acceleration : list Qc;
  ball_position : list Qc;
  applied_force : list Qc;
  error_values : list Qc;
  error_derivative_values : list Qc;
  error_integral_values : list Qc;
  error_integral : Qc;
  previous_error : Qc
}.

Section Simulate.

Context (K : Consts) (np : Numpy).
Context (angle_deg ball_x ball_y_initial train_x_initial : Qc).

Definition angle_rad : Qc := deg2rad np angle_deg.

(** [np.zeros(n)] *)
Definition zeros (n : nat) : list Qc := replicate n 0.

(** [np.arange(0, num_steps) * dt] *)
Definition make_time_array (num_steps : nat) : list Qc :=
  (fun k => of_nat k * dt K) <$> seq 0 num_steps.

(** The friction branch of the loop body (lines 91-96), for the velocity
    [vel] read from [train_velocity[i]]. *)
Definition F_friction_of (vel : Qc) : Qc :=
  let N := m K * g K * cos np angle_rad in
  if decide (dec 1 100 < vel) then - mu K * N
  else if decide (vel < - dec 1 100) then mu K * N
  else 0.

(** One iteration of the [for i in range(num_steps)] loop (lines 64-119). *)
Definition loop_body (time_array : list Qc) (num_steps : nat)
    (st : SimState) (i : nat) : SimState :=
  (* Ball falls with gravity *)
  let ball0 := ball_y_initial - dec 5 10 * g K * (time_array !!! i) ^ 2 in
  (* Stop ball if it reaches the ground at its X position *)
  let ball_landing_y := ball_x * tan np angle_rad in
  let ball_i := if decide (ball0 ≤ ball_landing_y) then ball_landing_y else ball0 in
  let ball_position' := <[i := ball_i]> (ball_position st) in
  (* Calculate error (horizontal distance) *)
  let current_error := ball_x - train_position st !!! i in
  let error_values' := <[i := current_error]> (error_values st) in
  (* PID control *)
  let error_integral' := error_integral st + current_error * dt K in
  let error_derivative := (current_error - previous_error st) / dt K in
  let error_derivative_values' :=
    <[i := error_derivative]> (error_derivative_values st) in
  let error_integral_values' :=
    <[i := error_integral']> (error_integral_values st) in
  (* Control force *)
  let F_control :=
    Kp K * current_error + Ki K * error_integral' + Kd K * error_derivative in
  (* Physics: forces on incline *)
  let F_friction := F_friction_of (train_velocity st !!! i) in
  let F_gravity := - m K * g K * sin np angle_rad in
  let F_net := F_control + F_friction + F_gravity in
  let applied_force' := <[i := F_control]> (applied_force st) in
  let acceleration := F_net / m K in
  let train_acceleration' := <[i := acceleration]> (train_acceleration st) in
  (* Update velocity and position for next step *)
  let '(train_position', train_velocity') :=
    if decide (i < num_steps - 1)%nat then
      let vel1 :=
        <[S i := train_velocity st !!! i + acceleration * dt K]> (train_velocity st) in
      let pos1 :=
        <[S i := train_position st !!! i + vel1 !!! S i * dt K]> (train_position st) in
      (* Keep train on the surface (X >= 0) *)
      if decide (pos1 !!! S i < 0) then (<[S i := 0]> pos1, <[S i := 0]> vel1)
      else (pos1, vel1)
    else (train_position st, train_velocity st) in
  {| train_position := train_position';
     train_velocity := train_velocity';
     train_acceleration := train_acceleration';
     ball_position := ball_position';
     applied_force := applied_force';
     error_values := error_values';
     error_derivative_values := error_derivative_values';
     error_integral_values := error_integral_values';
     error_integral := error_integral';
     previous_error := current_error |}.

(** The state on entry to the loop (lines 43-60), for [num_steps >= 1]. *)
Definition init_state (num_steps : nat) : SimState :=
  let train_position0 := <[0%nat := train_x_initial]> (zeros num_steps) in
  {| train_position := train_position0;
     train_velocity := <[0%nat := 0]> (zeros num_steps);
     train_acceleration := zeros num_steps;
     ball_position := <[0%nat := ball_y_initial]> (zeros num_steps);
     applied_force := zeros num_steps;
     error_values := zeros num_steps;
     error_derivative_values := zeros num_steps;
     error_integral_values := zeros num_steps;
     error_integral := 0;
     previous_error := ball_x - train_position0 !!! 0%nat |}.

(** The [pd.DataFrame({...})] of lines 122-131. *)
Definition make_frame (time_array : list Qc) (st : SimState) : DataFrame :=
  [ ("time"%string, time_array);
    ("train_position"%string, train_position st);
    ("falling_object_position"%string, ball_position st);
    ("applied_force"%string, applied_force st);
    ("train_velocity"%string, train_velocity st);
    ("train_acceleration"%string, train_acceleration st);
    ("error_derivative"%string, error_derivative_values st);
    ("error_integral"%string, error_integral_values st) ].

(** [num_steps = int(simulation_time / dt)], with the [ZeroDivisionError]
    of a float division by zero.  Python truncates the quotient as rounded
    to a double, the model the exact quotient; the two agree for the
    constants of the module, where the double quotient is exactly
    [2000.0], and can differ by one step for other constants when the
    exact quotient lies next to an integer. *)
Definition num_steps_of : result Z :=
  if decide (dt K = 0) then Raise ZeroDivisionError
  else Ok (int (simulation_time K / dt K)).

(** [simulate_scenario], up to the data frame it writes with [to_csv]; the
    argument [scenario_num] only names the output file and is left out.
    [np.zeros] raises [ValueError] on a negative size, and the store
    [train_position[0] = train_x_initial] raises [IndexError] on an empty
    array. *)
Definition simulate_scenario : result DataFrame :=
  match num_steps_of with
  | Raise e => Raise e
  | Ok num_steps =>
      if decide (num_steps < 0)%Z then Raise ValueError
      else
        let n := Z.to_nat num_steps in
        let time_array := make_time_array n in
        if decide (n = 0%nat) then Raise IndexError
        else
          let st := foldl (loop_body time_array n) (init_state n) (seq 0 n) in
          Ok (make_frame time_array st)
  end.

(** *** The loop as a recurrence

    The values an iteration reads: the train's position and velocity, the
    integral accumulated so far and the previous error.  [entry k] is that
    data on entry to iteration [k]; the loop is proved below to compute
    exactly this recurrence. *)
Record Train := {
  pos : Qc;
  vel : Qc;
  integ : Qc;
  prev : Qc
}.

Definition ball_landing_y : Qc := ball_x * tan np angle_rad.

(** Lines 65-70 as a function of the elapsed time. *)
Definition ball_height (t : Qc) : Qc :=
  let y := ball_y_initial - dec 5 10 * g K * t ^ 2 in
  if decide (y ≤ ball_landing_y) then ball_landing_y else y.

Definition current_error_of (T : Train) : Qc := ball_x - pos T.

Definition integral_of (T : Train) : Qc := integ T + current_error_of T * dt K.

Definition derivative_of (T : Train) : Qc :=
  (current_error_of T - prev T) / dt K.

Definition F_control_of (T : Train) : Qc :=
  Kp K * current_error_of T + Ki K * integral_of T + Kd K * derivative_of T.

Definition F_gravity : Qc := - m K * g K * sin np angle_rad.

Definition acceleration_of (T : Train) : Qc :=
  (F_control_of T + F_friction_of (vel T) + F_gravity) / m K.

(** Lines 111-117: the candidate velocity and position, and the hard stop. *)
Definition advance (T : Train) : Train :=
  let v1 := vel T + acceleration_of T * dt K in
  let s1 := pos T + v1 * dt K in
  {| pos := if decide (s1 < 0) then 0 else s1;
     vel := if decide (s1 < 0) then 0 else v1;
     integ := integral_of T;
     prev := current_error_of T |}.

Fixpoint entry (k : nat) : Train :=
  match k with
  | O => {| pos := train_x_initial; vel := 0; integ := 0;
            prev := ball_x - train_x_initial |}
  | S k' => advance (entry k')
  end.

(** All eight arrays have [n] cells. *)
Definition sized (n : nat) (st : SimState) : Prop :=
  length (train_position st) = n ∧ length (train_velocity st) = n ∧
  length (train_acceleration st) = n ∧ length (ball_position st) = n ∧
  length (applied_force st) = n ∧ length (error_values st) = n ∧
  length (error_derivative_values st) = n ∧
  length (error_integral_values st) = n.

(** What iteration [j] has stored in the per-step arrays. *)
Definition stored (time_array : list Qc) (st : SimState) (j : nat) : Prop :=
  ball_position st !!! j = ball_height (time_array !!! j) ∧
  error_values st !!! j = current_error_of (entry j) ∧
  error_derivative_values st !!! j = derivative_of (entry j) ∧
  error_integral_values st !!! j = integral_of (entry j) ∧
  applied_force st !!! j = F_control_of (entry j) ∧
  train_acceleration st !!! j = acceleration_of (entry j).

(** The loop invariant after [k] iterations out of [n]. *)
Definition loop_inv (time_array : list Qc) (n k : nat) (st : SimState) : Prop :=
  sized n st ∧
  (∀ j, (j < k)%nat → stored time_array st j) ∧
  (∀ j, (j ≤ k)%nat → (j < n)%nat →
        train_position st !!! j = pos (entry j) ∧
        train_velocity st !!! j = vel (entry j)) ∧
  error_integral st = integ (entry k) ∧
  previous_error st = prev (entry k).

(** The friction force in the words of the specification:
    [-mu*m*g*cos(angle)*sign(v)] when [|v| > 0.01], and 0 otherwise. *)
Definition friction_spec (v : Qc) : Qc :=
  if decide (dec 1 100 < abs v)
  then - mu K * m K * g K * cos np angle_rad * sign v
  else 0.

(** The number of records the specification expects:
    [floor(duration / dt)]. *)
Definition expected_records : nat :=
  Z.to_nat (Qfloor (simulation_time K / dt K)%Qc).

(** The iterations run by [simulate_scenario] on [n] steps. *)
Definition run_loop (n : nat) : SimState :=
  foldl (loop_body (make_time_array n) n) (init_state n) (seq 0 n).

(** *** The quantities the specification names, read off the data frame *)

(** [e_k = ball_x - s_k], from the recorded train position. *)
Definition tracking_error (df : DataFrame) (k : nat) : Qc :=
  ball_x - col "train_position" df !!! k.

(** The previous error at step [k]: the seed [ball_x - train_x0] at the
    first step, the error of step [k-1] afterwards. *)
Definition previous_error_at (df : DataFrame) (k : nat) : Qc :=
  match k with
  | O => ball_x - train_x_initial
  | S j => tracking_error df j
  end.

(** [e_0 + ... + e_k]. *)
Fixpoint error_sum (df : DataFrame) (k : nat) : Qc :=
  match k with
  | O => tracking_error df 0
  | S j => error_sum df j + tracking_error df (S j)
  end.

(** The shape of the data frame: eight columns of [n] cells each. *)
Definition frame_shape (n : nat) (df : DataFrame) : Prop :=
  length (col "time" df) = n ∧
  length (col "train_position" df) = n ∧
  length (col "falling_object_position" df) = n ∧
  length (col "applied_force" df) = n ∧
  length (col "train_velocity" df) = n ∧
  length (col "train_acceleration" df) = n ∧
  length (col "error_derivative" df) = n ∧
  length (col "error_integral" df) = n.

(** Row [k] of the data frame holds the values of the recurrence. *)
Definition frame_row (df : DataFrame) (k : nat) : Prop :=
  col "time" df !!! k = of_nat k * dt K ∧
  col "train_position" df !!! k = pos (entry k) ∧
  col "train_velocity" df !!! k = vel (entry k) ∧
  col "falling_object_position" df !!! k =
    ball_height (of_nat k * dt K) ∧
  col "applied_force" df !!! k = F_control_of (entry k) ∧
  col "train_acceleration" df !!! k =
    acceleration_of (entry k) ∧
  col "error_derivative" df !!! k = derivative_of (entry k) ∧
  col "error_integral" df !!! k = integral_of (entry k).

End Simulate.

(** The frame of a call, or the empty frame when the call raises. *)
Definition frame_of (r : result DataFrame) : DataFrame :=
  match r with
  | Ok df => df
  | Raise _ => []
  end.

(** The concrete scenario of the specification on a flat track, cut to
    five steps: [ball_x = 70], [ball_y0 = 100], [train_x0 = 10]. *)
Definition short_run : DataFrame :=
  frame_of (simulate_scenario short_consts numpy_flat 0
              (dec 70 1) (dec 100 1) (dec 10 1)).



End GenerateRandomScenarios.

(** ** animate_realtime.py: the catch classifier of the [animate] callback *)

Module AnimateRealtime.

(** The two messages [animate] prints when it classifies the run. *)
Inductive Message :=
| BallCaught (idx : nat)
| BallMissed (idx : nat).

(** The [nonlocal] variables of the callback; [None] is Python's [None]. *)
Record Closure := {
  ball_caught_at_frame : option nat;
  ball_caught_y : option Qc
}.

(** The variables on entry to the first call (lines 410-411). *)
Definition fresh : Closure :=
  {| ball_caught_at_frame := None; ball_caught_y := None |}.

(** What the specification calls the state of the classifier.  The code
    keeps one variable for both terminal states and tells them apart only
    in the message it prints. *)
Inductive Status := PENDING | CAUGHT | MISSED.

Definition status_of (log : list Message) : Status :=
  match log with
  | [] => PENDING
  | BallCaught _ :: _ => CAUGHT
  | BallMissed _ :: _ => MISSED
  end.

Section Animate.

Context (np : Numpy).
(** [self.train_pos], [self.obj_pos], and the enclosing function's
    [angle_rad], [obj_x_position] and [frame_indices]. *)
Context (train_pos obj_pos : list Qc).
Context (angle_rad obj_x_position : Qc).
Context (frame_indices : list nat).

Definition surface_y_at_ball_x : Qc := obj_x_position * tan np angle_rad.

(** Lines 413-461 of [animate]: the new closure variables, the messages
    printed, and [ball_display_y].  Reads of the arrays are total here;
    Python raises [IndexError] outside the arrays, and the callers below
    stay inside. *)
Definition animate (frame_num : nat) (st : Closure)
    : Closure * list Message * Qc :=
  let idx := frame_indices !!! frame_num in
  let train_x_current := train_pos !!! idx in
  let obj_y_current := obj_pos !!! idx in
  (* If ball hasn't been caught yet, check catching conditions *)
  let '(st1, out1) :=
    match ball_caught_at_frame st with
    | None =>
        if decide (obj_y_current ≤ surface_y_at_ball_x + dec 1 1) then
          let horizontal_dist := abs (train_x_current - obj_x_position) in
          if decide (horizontal_dist < dec 3 1) then
            ({| ball_caught_at_frame := Some idx;
                ball_caught_y := Some surface_y_at_ball_x |},
             [BallCaught idx])
          else (st, [])
        else (st, [])
    | Some _ => (st, [])
    end in
  (* Determine ball's actual Y position for display *)
  match ball_caught_at_frame st1 with
  | Some _ => (st1, out1, default 0 (ball_caught_y st1))
  | None =>
      let ball_display_y := obj_y_current in
      if decide (ball_display_y < surface_y_at_ball_x) then
        ({| ball_caught_at_frame := Some idx;
            ball_caught_y := Some surface_y_at_ball_x |},
         out1 ++ [BallMissed idx], surface_y_at_ball_x)
      else (st1, out1, ball_display_y)
  end.

(** The animation: [animate] called on the frame numbers [calls] in order,
    the closure variables carried from call to call, the messages
    collected. *)
Definition call (acc : Closure * list Message) (frame_num : nat)
    : Closure * list Message :=
  let '(c', out, _) := animate frame_num acc.1 in (c', acc.2 ++ out).

Definition play (calls : list nat) (st : Closure) : Closure * list Message :=
  foldl call (st, []) calls.

(** The frame numbers [FuncAnimation] passes with
    [frames=len(frame_indices)], and the frames that index the data. *)
Definition in_range (frame_num : nat) : Prop :=
  (frame_num < length frame_indices)%nat ∧
  (frame_indices !!! frame_num < length train_pos)%nat ∧
  (frame_indices !!! frame_num < length obj_pos)%nat.

(** The catch test of lines 435-438 at a frame. *)
Definition catch_test (frame_num : nat) : Prop :=
  let idx := frame_indices !!! frame_num in
  obj_pos !!! idx ≤ surface_y_at_ball_x + dec 1 1 ∧
  abs (train_pos !!! idx - obj_x_position) < dec 3 1.

(** The landing test of line 455 at a frame: strictly below the surface. *)
Definition below_surface (frame_num : nat) : Prop :=
  obj_pos !!! (frame_indices !!! frame_num) < surface_y_at_ball_x.

(** The specification's reading of "the object has reached the landing
    surface": its vertical distance to the surface is within the
    tolerance. *)
Definition reached_surface (frame_num : nat) : Prop :=
  abs (obj_pos !!! (frame_indices !!! frame_num) - surface_y_at_ball_x)
    ≤ dec 1 1.

(** A frame that ends the pending state: a catch, or the object below the
    surface. *)
Definition decisive (frame_num : nat) : Prop :=
  catch_test frame_num ∨ below_surface frame_num.

#[global] Instance decisive_dec frame_num : Decision (decisive frame_num).
Proof. unfold decisive, catch_test, below_surface. apply _. Defined.

(** The closure variables once a frame has classified the run. *)
Definition landed (frame_num : nat) : Closure :=
  {| ball_caught_at_frame := Some (frame_indices !!! frame_num);
     ball_caught_y := Some surface_y_at_ball_x |}.

(** The message a frame that ends the pending state prints. *)
Definition verdict (frame_num : nat) : Message :=
  if decide (catch_test frame_num)
  then BallCaught (frame_indices !!! frame_num)
  else BallMissed (frame_indices !!! frame_num).

End Animate.

(** A dataset of two frames on a flat track with the ball at [x = 70]: the
    ball lies on the surface in both, the train is at 10 and then at 69. *)
Definition late_train_pos : list Qc := [dec 10 1; dec 69 1].
Definition late_obj_pos : list Qc := [0; 0].
Definition late_frames : list nat := [0; 1]%nat.

End AnimateRealtime.

(** ** analyze_random_scenarios.py: the catch search of [calculate_metrics] *)

Module AnalyzeRandomScenarios.

(** Lines 52-65: the first row at which the ball is at or near the surface
    and the train within range; [Some (catch_time, catch_distance)] when
    [caught] is set. *)
Fixpoint find_catch (ball_x ball_landing_y : Qc)
    (rows : list (Qc * Qc * Qc)) : option (Qc * Qc) :=
  match rows with
  | [] => None
  | (t, train_x, ball_y) :: rest =>
      if decide (ball_y ≤ ball_landing_y + dec 1 1) then
        let distance := abs (train_x - ball_x) in
        if decide (distance ≤ dec 3 1) then Some (t, distance)
        else find_catch ball_x ball_landing_y rest
      else find_catch ball_x ball_landing_y rest
  end.

(** [zip(scenario['time'], scenario['train_pos'], scenario['ball_pos'])] *)
Fixpoint zip3 (a b c : list Qc) : list (Qc * Qc * Qc) :=
  match a, b, c with
  | x :: a', y :: b', z :: c' => (x, y, z) :: zip3 a' b' c'
  | _, _, _ => []
  end.

(** [calculate_metrics], as far as [caught], [catch_time] and
    [catch_distance]; [angle] and [ball_x] are the parameters parsed from
    the file name. *)
Definition calculate_metrics (np : Numpy) (angle ball_x : Qc)
    (time train_pos ball_pos : list Qc) : option (Qc * Qc) :=
  let angle_rad := deg2rad np angle in
  let ball_landing_y := ball_x * tan np angle_rad in
  find_catch ball_x ball_landing_y (zip3 time train_pos ball_pos).

(** The test of lines 59-61 at the row [i] of the three arrays. *)
Definition near (ball_x ball_landing_y : Qc) (train_pos ball_pos : list Qc)
    (i : nat) : Prop :=
  ball_pos !!! i ≤ ball_landing_y + dec 1 1 ∧
  abs (train_pos !!! i - ball_x) ≤ dec 3 1.

End AnalyzeRandomScenarios.

(** ** The loader of analyze_comprehensive.py *)

Module AnalyzeComprehensive.

(** [df[names]]: the named columns in the order asked, [KeyError] when one
    is missing. *)
Fixpoint select (names : list string) (df : DataFrame) : option DataFrame :=
  match names with
  | [] => Some []
  | name :: rest =>
      match column name df, select rest df with
      | Some vals, Some df' => Some ((name, vals) :: df')
      | _, _ => None
      end
  end.

(** [df.columns = names]: pandas raises [ValueError] unless there are as
    many names as columns. *)
Definition set_columns (names : list string) (df : DataFrame)
    : result DataFrame :=
  if decide (length names = length df) then Ok (zip names (snd <$> df))
  else Raise ValueError.

Definition legacy_names : list string :=
  ["time"; "train_x"; "ball_y"; "force"]%string.

(** Lines 49-56 on the frame [df] that [pd.read_csv] has returned. *)
Definition load (df : DataFrame) : result DataFrame :=
  if decide (length df = 4%nat) then set_columns legacy_names df
  else
    match select ["time"; "train_position"; "falling_object_position";
                  "applied_force"]%string df with
    | Some df' => set_columns legacy_names df'
    | None => Raise KeyError
    end.

End AnalyzeComprehensive.

(** ** generate_random_scenarios.py: the scenarios drawn by [main] *)

Module GenerateRandomScenariosMain.

(** numpy at 30 degrees, to the digits numpy prints for the doubles it
    returns; used for concrete runs on a slope. *)
Definition numpy_30 : Numpy := {|
  deg2rad := fun _ => dec 5235987755982988 10000000000000000;
  tan := fun _ => dec 5773502691896257 10000000000000000;
  cos := fun _ => dec 8660254037844387 10000000000000000;
  sin := fun _ => dec 49999999999999994 100000000000000000
|}.

(** Five steps on the 30 degree slope with the ball 1 m ahead of a train
    at the origin. *)
Definition slope_run : DataFrame :=
  GenerateRandomScenarios.frame_of
    (GenerateRandomScenarios.simulate_scenario short_consts numpy_30
       (dec 30 1) (dec 1 1) (dec 100 1) 0).

(** [random.uniform(a, b)] is [a + (b - a) * random.random()]; [u] is the
    value of [random.random()]. *)
Definition uniform (a b u : Qc) : Qc := a + (b - a) * u.

(** Python's [max] of two numbers. *)
Definition max (a b : Qc) : Qc := if decide (a < b) then b else a.

(** The arguments of one call of [simulate_scenario]. *)
Record Scenario := {
  angle : Qc;
  ball_x : Qc;
  ball_y_initial : Qc;
  train_x_initial : Qc;
  scenario_num : nat
}.

(** Lines 159-174 for the iteration [i]; [rand] is the stream of values
    of [random.random()], four of which each iteration consumes. *)
Definition draw (rand : nat -> Qc) (i : nat) : Scenario :=
  let angle := uniform 0 (dec 45 1) (rand (4 * i)%nat) in
  let ball_x := uniform (dec 20 1) (dec 100 1) (rand (4 * i + 1)%nat) in
  let ball_y_initial := uniform (dec 30 1) (dec 100 1) (rand (4 * i + 2)%nat) in
  let max_train_x := max 0 (ball_x - dec 20 1) in
  let train_x_initial := uniform 0 max_train_x (rand (4 * i + 3)%nat) in
  {| angle := angle; ball_x := ball_x; ball_y_initial := ball_y_initial;
     train_x_initial := train_x_initial; scenario_num := (i + 1)%nat |}.

(** The calls of the loop in order; an exception of a call ends [main]. *)
Fixpoint run_all (K : Consts) (np : Numpy) (scs : list Scenario)
    : result (list DataFrame) :=
  match scs with
  | [] => Ok []
  | sc :: rest =>
      match GenerateRandomScenarios.simulate_scenario K np (angle sc)
              (ball_x sc) (ball_y_initial sc) (train_x_initial sc) with
      | Raise e => Raise e
      | Ok df =>
          match run_all K np rest with
          | Raise e => Raise e
          | Ok dfs => Ok (df :: dfs)
          end
      end
  end.

(** [main]: the frames of the ten scenarios. *)
Definition main (K : Consts) (np : Numpy) (rand : nat -> Qc)
    : result (list DataFrame) :=
  run_all K np (draw rand <$> seq 0 10).

End GenerateRandomScenariosMain.

(** ** animate_realtime.py: the frames of [create_realtime_animation] *)

Module AnimateRealtimeSetup.

Section Setup.

(** [self.time], [self.train_pos], [self.obj_pos], and the function's
    [obj_x_position], [ball_landing_y], [fps] and [speed]. *)
Context (time train_pos obj_pos : list Qc).
Context (obj_x_position ball_landing_y : Qc).
Context (fps : Z) (speed : Qc).

(** The test of line 375. *)
Definition catch_frame_test (idx : nat) : Prop :=
  abs (train_pos !!! idx - obj_x_position) < dec 2 1 ∧
  abs (obj_pos !!! idx - ball_landing_y) < dec 5 1.

#[global] Instance catch_frame_test_dec idx : Decision (catch_frame_test idx).
Proof. unfold catch_frame_test. apply _. Defined.

(** Lines 363-380: the first index that passes the test. *)
Definition catch_frame : option nat :=
  fst <$> list_find catch_frame_test (seq 0 (length time)).

(** [range(0, n, step)] for a positive step. *)
Definition range_step (n step : nat) : list nat :=
  (fun j => (j * step)%nat) <$> seq 0 ((n + step - 1) / step).

(** The value of line 359 where it raises nothing; [self.time[-1]] is
    the last cell. *)
Definition frame_skip : nat :=
  let time_last := time !!! (length time - 1)%nat in
  Z.to_nat (Z.max 1 (int (of_nat (length time)
                          / (time_last * Qc_of_Z fps / speed)))).

(** Lines 360-387: the frames the animation shows, for the value
    [frame_skip] of line 359. *)
Definition frames_from (frame_skip : nat) : list nat :=
  let frame_indices := range_step (length time) frame_skip in
  match catch_frame with
  | Some c =>
      let frame_indices := filter (fun f => (f ≤ c)%nat) frame_indices in
      let frame_indices :=
        if decide (c ∈ frame_indices) then frame_indices
        else frame_indices ++ [c] in
      merge_sort Nat.le frame_indices
  | None => frame_indices
  end.

Definition frame_indices : list nat := frames_from frame_skip.

(** Line 359 with what it raises.  [self.time[-1]] raises [IndexError] on
    empty data.  The divisions are numpy's, which raise nothing on a zero
    divisor: [time_last * fps / speed] is an infinity for [speed = 0], or
    NaN when [time_last * fps] is 0 as well; [len / 0.0] is an infinity.
    [int] raises [OverflowError] on an infinity and [ValueError] on NaN,
    and [len / inf] is 0, of which [max] makes 1. *)
Definition frame_skip_checked : result nat :=
  if decide (time = []) then Raise IndexError
  else
    let time_last := time !!! (length time - 1)%nat in
    if decide (speed = 0) then
      if decide (time_last * Qc_of_Z fps = 0) then Raise ValueError
      else Ok 1%nat
    else if decide (time_last * Qc_of_Z fps / speed = 0)
    then Raise OverflowError
    else Ok frame_skip.

(** Lines 359-387: an exception of line 359 ends the function before any
    frame is chosen. *)
Definition frame_indices_checked : result (list nat) :=
  match frame_skip_checked with
  | Raise e => Raise e
  | Ok frame_skip => Ok (frames_from frame_skip)
  end.

End Setup.

Section Trail.

Context (np : Numpy).
Context (obj_pos : list Qc) (angle_rad obj_x_position : Qc).

(** Lines 474-487 of [animate]: the heights of the ball's trail at the
    frame of index [idx], for the closure variables as they are after the
    classification of that frame; [None] when the trail is left as it
    was. *)
Definition trail_y_values (idx : nat) (st : AnimateRealtime.Closure)
    : option (list Qc) :=
  let surface_y_at_ball_x :=
    AnimateRealtime.surface_y_at_ball_x np angle_rad obj_x_position in
  let trail_len := Z.min 50 (Z.of_nat idx + 1) in
  if decide (1 < trail_len)%Z then
    let trail_start := Z.to_nat (Z.max 0 (Z.of_nat idx - trail_len + 1)) in
    Some ((fun i =>
             match AnimateRealtime.ball_caught_at_frame st with
             | Some c =>
                 if decide (c ≤ i)%nat
                 then default 0 (AnimateRealtime.ball_caught_y st)
                 else
                   let y_val := obj_pos !!! i in
                   if decide (y_val < surface_y_at_ball_x)
                   then surface_y_at_ball_x else y_val
             | None =>
                 let y_val := obj_pos !!! i in
                 if decide (y_val < surface_y_at_ball_x)
                 then surface_y_at_ball_x else y_val
             end)
          <$> seq trail_start (idx + 1 - trail_start))
  else None.

End Trail.

(** The times of the two frames of [AnimateRealtime.late_train_pos]. *)
Definition late_time : list Qc := [0; dec 2 100].

(** A file of one row: the train at 10, the ball at a height of 100. *)
Definition single_time : list Qc := [0].
Definition single_train_pos : list Qc := [dec 10 1].
Definition single_obj_pos : list Qc := [dec 100 1].

End AnimateRealtimeSetup.

(** ** analyze_comprehensive.py: the analysis of one file *)

Module AnalyzeComprehensiveLoop.

(** The entries of [results] that lines 62-87 compute. *)
Record Outcome := {
  ball_landing_time : option Qc;
  train_arrival_time : option Qc;
  caught : bool;
  time_margin : option Qc
}.

Section Analyse.

(** The columns [time], [train_x] and [ball_y] of the frame, and the
    [ball_x] and [ball_landing_y] computed from the file name. *)
Context (time train_x ball_y : list Qc).
Context (ball_x ball_landing_y : Qc).

(** Lines 63-67: the time of the first row with the ball at or below the
    landing height. *)
Definition landing_time : option Qc :=
  match list_find (fun y => y ≤ ball_landing_y) ball_y with
  | Some (i, _) => Some (time !!! i)
  | None => None
  end.

(** Lines 70-74: the time of the first row with the train within 2 m. *)
Definition arrival_time : option Qc :=
  match list_find (fun x => abs (x - ball_x) ≤ dec 2 1) train_x with
  | Some (i, _) => Some (time !!! i)
  | None => None
  end.

(** Lines 82-87. *)
Definition analyse : Outcome :=
  match arrival_time, landing_time with
  | Some a, Some l =>
      let caught := bool_decide (a ≤ l) in
      {| ball_landing_time := Some l; train_arrival_time := Some a;
         caught := caught;
         time_margin := if caught then Some (l - a) else None |}
  | a, l =>
      {| ball_landing_time := l; train_arrival_time := a;
         caught := false; time_margin := None |}
  end.

End Analyse.

(** [i] is the first index of [l] whose cell satisfies [P]. *)
Definition first_index (P : Qc -> Prop) (l : list Qc) (i : nat) : Prop :=
  (i < length l)%nat ∧ P (l !!! i) ∧ ∀ j, (j < i)%nat → ¬ P (l !!! j).

(** Four rows, 1 s apart: the train comes within 2 m of [ball_x = 70] at
    the third, the ball reaches the landing height 0 at the fourth. *)
Definition demo_time : list Qc := [0; dec 1 1; dec 2 1; dec 3 1].
Definition demo_train_x : list Qc := [dec 10 1; dec 40 1; dec 69 1; dec 70 1].
Definition demo_ball_y : list Qc := [dec 100 1; dec 60 1; dec 20 1; 0].

End AnalyzeComprehensiveLoop.

(** ** The names of the scenario files *)

Module FileNames.

Local Open Scope string_scope.

(** The decimal digits of a natural number. *)
Definition digits (n : nat) : string :=
  NilEmpty.string_of_uint (Nat.to_uint n).

Fixpoint zeros (k : nat) : string :=
  match k with
  | O => ""
  | S k' => String "0" (zeros k')
  end.

(** Python's [format(z, '0{width}d')]: the sign, then zeros up to the
    width, then the digits. *)
Definition format_d (width : nat) (z : Z) : string :=
  if decide (z < 0)%Z then
    let d := digits (Z.to_nat (- z)) in
    String "-" (zeros (width - 1 - String.length d) +:+ d)
  else
    let d := digits (Z.to_nat z) in
    zeros (width - String.length d) +:+ d.

(** Line 137 of [generate_random_scenarios.py]. *)
Definition filename (scenario_num : Z)
    (angle_deg ball_x ball_y_initial train_x_initial : Qc) : string :=
  "Random_S" +:+ format_d 2 scenario_num +:+
  "_A" +:+ format_d 2 (int angle_deg) +:+
  "_BallX" +:+ format_d 3 (int ball_x) +:+
  "Y" +:+ format_d 3 (int ball_y_initial) +:+
  "_TrainX" +:+ format_d 3 (int train_x_initial) +:+ ".csv".

(** The class [\d] on ASCII text. *)
Definition is_digit (a : ascii) : bool :=
  (48 <=? nat_of_ascii a)%nat && (nat_of_ascii a <=? 57)%nat.

(** The longest prefix of digits, and what follows it. *)
Fixpoint span_digits (s : string) : string * string :=
  match s with
  | "" => ("", "")
  | String a s' =>
      if is_digit a then
        let '(d, r) := span_digits s' in (String a d, r)
      else ("", s)
  end.

(** A literal of the pattern at the head of the text. *)
Fixpoint literal (p s : string) : option string :=
  match p with
  | "" => Some s
  | String a p' =>
      match s with
      | "" => None
      | String b s' => if decide (a = b) then literal p' s' else None
      end
  end.

(** The group [(\d+)] followed by a literal [p] that starts with a
    character other than a digit: the group then takes all the digits
    there are, and there must be one at least. *)
Definition group_then (p s : string) : option (string * string) :=
  let '(d, r) := span_digits s in
  if decide (d = "") then None
  else match literal p r with
       | Some r' => Some (d, r')
       | None => None
       end.

(** The text consists of digits. *)
Fixpoint all_digits (s : string) : bool :=
  match s with
  | "" => true
  | String a s' => is_digit a && all_digits s'
  end.

(** The text does not start with a digit. *)
Definition no_digit_ahead (s : string) : Prop :=
  match s with
  | "" => True
  | String a _ => is_digit a = false
  end.

(** Python's [int] on a text of digits. *)
Definition int_of_digits (d : string) : Z :=
  match NilEmpty.uint_of_string d with
  | Some u => Z.of_nat (Nat.of_uint u)
  | None => 0
  end.

(** The dictionary that [parse_filename] returns. *)
Record Params := {
  scenario : Z;
  angle : Z;
  ball_x : Z;
  ball_y : Z;
  train_x : Z
}.

(** A match of
    [Random_S(\d+)_A(\d+)_BallX(\d+)Y(\d+)_TrainX(\d+)] at the
    head of the text. *)
Definition match_here (s : string) : option Params :=
  match literal "Random_S" s with
  | None => None
  | Some s1 =>
  match group_then "_A" s1 with
  | None => None
  | Some (g1, s2) =>
  match group_then "_BallX" s2 with
  | None => None
  | Some (g2, s3) =>
  match group_then "Y" s3 with
  | None => None
  | Some (g3, s4) =>
  match group_then "_TrainX" s4 with
  | None => None
  | Some (g4, s5) =>
  match group_then "" s5 with
  | None => None
  | Some (g5, _) =>
      Some {| scenario := int_of_digits g1; angle := int_of_digits g2;
              ball_x := int_of_digits g3; ball_y := int_of_digits g4;
              train_x := int_of_digits g5 |}
  end end end end end end.

(** [re.search]: the match at the leftmost position that has one.
    [parse_filename] of [analyze_random_scenarios.py] (lines 12-23) is
    this search; [None] is its [return None]. *)
Fixpoint parse_filename (s : string) : option Params :=
  match match_here s with
  | Some ps => Some ps
  | None =>
      match s with
      | "" => None
      | String _ s' => parse_filename s'
      end
  end.

End FileNames.

(** * Arithmetic on [Qc] *)

(** Linear goals over [Qc], decided on the underlying fractions. *)
Ltac qc_lra :=
  unfold Qclt, Qcle, Qcopp, Qcplus, Qcminus, dec, Q2Qc in *;
  cbn [this] in *; rewrite ?Qred_correct in *; lra.

Lemma of_nat_0 : of_nat 0 = 0.
Proof. by apply Qc_is_canon. Qed.

(** [int] is the floor on non-negative numbers. *)
Lemma int_floor q : 0 ≤ q → int q = Qfloor q.
Proof.
  intros Hq. unfold int, Qfloor. destruct q as [[a b] Hc]; simpl.
  apply Z.quot_div_nonneg; [| lia].
  unfold Qcle in Hq; simpl in Hq. unfold Qle in Hq; simpl in Hq. lia.
Qed.


Lemma Qfloor_ge_1 (q : Qc) : 1 ≤ q → (1 ≤ Qfloor q)%Z.
Proof. intros H. change 1%Z with (Qfloor 1). by apply Qfloor_resp_le. Qed.

Lemma Qcdiv_ge_1 a b : 0 < b → b ≤ a → 1 ≤ a / b.
Proof.
  intros Hb Hab.
  unfold Qcle, Qclt, Qcdiv, Qcmult, Qcinv, Q2Qc in *; cbn [this] in *.
  rewrite !Qred_correct in *.
  apply Qle_shift_div_l; [done | lra].
Qed.


(** Two arrays of the same size with the same cells are the same array. *)
Lemma list_eq_total (l1 l2 : list Qc) n :
  length l1 = n → length l2 = n →
  (∀ k, (k < n)%nat → l1 !!! k = l2 !!! k) → l1 = l2.
Proof.
  intros H1 H2 Hk. apply (list_eq_same_length _ _ n); [done | done |].
  intros i x y Hi Hx Hy.
  apply list_lookup_total_correct in Hx, Hy. rewrite <- Hx, <- Hy. by apply Hk.
Qed.

(** * Properties of the simulation loop *)

Section SimulateFacts.

Import GenerateRandomScenarios.

Context (K : Consts) (np : Numpy).
Context (angle_deg ball_x ball_y_initial train_x_initial : Qc).

Local Abbreviation entry := (entry K np angle_deg ball_x train_x_initial).
Local Abbreviation loop_body :=
  (loop_body K np angle_deg ball_x ball_y_initial).
Local Abbreviation init_state :=
  (init_state ball_x ball_y_initial train_x_initial).
Local Abbreviation loop_inv :=
  (loop_inv K np angle_deg ball_x ball_y_initial train_x_initial).
Local Abbreviation stored :=
  (stored K np angle_deg ball_x ball_y_initial train_x_initial).
Local Abbreviation frame_row :=
  (frame_row K np angle_deg ball_x ball_y_initial train_x_initial).

Lemma zeros_length n : length (zeros n) = n.
Proof. apply length_replicate. Qed.

Lemma loop_inv_init ta n : (0 < n)%nat → loop_inv ta n 0 (init_state n).
Proof.
  intros Hn. unfold GenerateRandomScenarios.loop_inv, sized, init_state; simpl.
  rewrite !length_insert, !zeros_length.
  repeat split; try reflexivity; try lia.
  - assert (j = 0%nat) as -> by lia.
    apply list_lookup_total_insert_eq. rewrite zeros_length; lia.
  - assert (j = 0%nat) as -> by lia.
    apply list_lookup_total_insert_eq. rewrite zeros_length; lia.
  - rewrite list_lookup_total_insert_eq; [reflexivity | rewrite zeros_length; lia].
Qed.

Lemma loop_body_sized ta n st i :
  sized n st → sized n (loop_body ta n st i).
Proof.
  unfold sized, GenerateRandomScenarios.loop_body.
  intros (?&?&?&?&?&?&?&?).
  repeat case_decide; simpl; rewrite ?length_insert; auto 10.
Qed.

Lemma loop_inv_step ta n k st :
  (k < n)%nat → loop_inv ta n k st → loop_inv ta n (S k) (loop_body ta n st k).
Proof.
  intros Hk (Hsz & Hst & Hpv & HI & Hprev).
  destruct (Hpv k) as [Hp Hv]; [lia | lia |].
  pose proof Hsz as (Lp & Lv & La & Lb & Lf & Le & Ld & Li).
  split; [by apply loop_body_sized |].
  assert (Hcur : ball_x - train_position st !!! k = current_error_of ball_x (entry k))
    by (unfold current_error_of; by rewrite Hp).
  unfold GenerateRandomScenarios.loop_body.
  rewrite Hcur, HI, Hprev, Hv.
  fold (integral_of K ball_x (entry k)).
  fold (derivative_of K ball_x (entry k)).
  fold (F_control_of K ball_x (entry k)).
  fold (F_gravity K np angle_deg).
  fold (acceleration_of K np angle_deg ball_x (entry k)).
  fold (ball_landing_y np angle_deg ball_x).
  fold (ball_height K np angle_deg ball_x ball_y_initial (ta !!! k)).
  rewrite Hp.
  assert (Hold : ∀ j, (j < S k)%nat → j ≠ k → (j < k)%nat) by lia.
  assert (Hstored : ∀ P V j, (j < S k)%nat →
    stored ta {|
      train_position := P; train_velocity := V;
      train_acceleration :=
        <[k:=acceleration_of K np angle_deg ball_x (entry k)]> (train_acceleration st);
      ball_position :=
        <[k:=ball_height K np angle_deg ball_x ball_y_initial (ta !!! k)]>
          (ball_position st);
      applied_force := <[k:=F_control_of K ball_x (entry k)]> (applied_force st);
      error_values := <[k:=current_error_of ball_x (entry k)]> (error_values st);
      error_derivative_values :=
        <[k:=derivative_of K ball_x (entry k)]> (error_derivative_values st);
      error_integral_values :=
        <[k:=integral_of K ball_x (entry k)]> (error_integral_values st);
      error_integral := integral_of K ball_x (entry k);
      previous_error := current_error_of ball_x (entry k) |} j).
  { intros P V j Hj. unfold GenerateRandomScenarios.stored; simpl.
    destruct (decide (j = k)) as [->|Hne].
    - rewrite !list_lookup_total_insert_eq by lia. done.
    - rewrite !list_lookup_total_insert_ne by done. apply Hst; auto. }
  destruct (decide (k < n - 1)%nat) as [Hlt|Hge].
  - rewrite (list_lookup_total_insert_eq (train_velocity st)) by lia.
    rewrite (list_lookup_total_insert_eq (train_position st)) by lia.
    case_decide; (split; [by auto | split; [| done]]); simpl;
      intros j Hj Hjn; (destruct (decide (j = S k)) as [->|Hne];
        [ rewrite !list_lookup_total_insert_eq by (rewrite ?length_insert; lia);
          change (entry (S k)) with (advance K np angle_deg ball_x (entry k));
          unfold advance; cbn [pos vel]; by case_decide
        | rewrite !list_lookup_total_insert_ne by done; apply Hpv; lia ]).
  - split; [by auto | split; [| done]]; simpl.
    intros j Hj Hjn. apply Hpv; lia.
Qed.

Local Abbreviation run_loop :=
  (run_loop K np angle_deg ball_x ball_y_initial train_x_initial).
Local Abbreviation simulate_scenario :=
  (simulate_scenario K np angle_deg ball_x ball_y_initial train_x_initial).

Lemma loop_inv_prefix ta n k :
  (0 < n)%nat → (k ≤ n)%nat →
  loop_inv ta n k (foldl (loop_body ta n) (init_state n) (seq 0 k)).
Proof.
  intros Hn. induction k as [|k IH]; intros Hk.
  - by apply loop_inv_init.
  - rewrite seq_S, foldl_app. simpl. apply loop_inv_step; [lia |]. apply IH; lia.
Qed.

Lemma run_loop_inv n :
  (0 < n)%nat → loop_inv (make_time_array K n) n n (run_loop n).
Proof. intros Hn. by apply loop_inv_prefix. Qed.

(** What a successful call has computed. *)
Lemma simulate_scenario_Ok df :
  simulate_scenario = Ok df →
  ∃ n, dt K ≠ 0 ∧ (0 < n)%nat ∧
       Z.of_nat n = int (simulation_time K / dt K) ∧
       df = make_frame (make_time_array K n) (run_loop n).
Proof.
  unfold GenerateRandomScenarios.simulate_scenario, num_steps_of.
  destruct (decide (dt K = 0)) as [|Hdt]; [done |].
  destruct (decide (int (simulation_time K / dt K) < 0)%Z) as [|Hneg]; [done |].
  destruct (decide (Z.to_nat (int (simulation_time K / dt K)) = 0%nat))
    as [|Hz]; [done |].
  intros [= <-]. exists (Z.to_nat (int (simulation_time K / dt K))).
  repeat split; [done | lia | lia].
Qed.

(** Conversely, the call succeeds as soon as there is one step to run. *)
Lemma simulate_scenario_runs :
  dt K ≠ 0 → (1 ≤ int (simulation_time K / dt K))%Z →
  ∃ df, simulate_scenario = Ok df.
Proof.
  intros Hdt Hn.
  unfold GenerateRandomScenarios.simulate_scenario, num_steps_of.
  destruct (decide (dt K = 0)); [done |].
  destruct (decide (int (simulation_time K / dt K) < 0)%Z); [lia |].
  destruct (decide (Z.to_nat (int (simulation_time K / dt K)) = 0%nat));
    [lia | eauto].
Qed.

Lemma make_time_array_length n : length (make_time_array K n) = n.
Proof. unfold make_time_array. by rewrite length_fmap, length_seq. Qed.

Lemma make_time_array_lookup n k :
  (k < n)%nat → make_time_array K n !!! k = of_nat k * dt K.
Proof.
  intros Hk. unfold make_time_array.
  apply list_lookup_total_correct.
  rewrite list_lookup_fmap, lookup_seq_lt by done. done.
Qed.

(** Reading the columns of the frame back by name. *)
Lemma make_frame_columns ta st :
  col "time" (make_frame ta st) = ta ∧
  col "train_position" (make_frame ta st) = train_position st ∧
  col "falling_object_position" (make_frame ta st) = ball_position st ∧
  col "applied_force" (make_frame ta st) = applied_force st ∧
  col "train_velocity" (make_frame ta st) = train_velocity st ∧
  col "train_acceleration" (make_frame ta st) = train_acceleration st ∧
  col "error_derivative" (make_frame ta st) = error_derivative_values st ∧
  col "error_integral" (make_frame ta st) = error_integral_values st.
Proof. repeat split. Qed.

(** The loop refines the recurrence. *)
Lemma simulate_scenario_rows df :
  simulate_scenario = Ok df →
  ∃ n, dt K ≠ 0 ∧ (0 < n)%nat ∧
       Z.of_nat n = int (simulation_time K / dt K) ∧
       frame_shape n df ∧ ∀ k, (k < n)%nat → frame_row df k.
Proof.
  intros (n & Hdt & Hn & Hint & ->)%simulate_scenario_Ok.
  exists n. do 3 (split; [done |]).
  destruct (run_loop_inv n Hn) as ((?&?&?&?&?&?&?&?) & Hst & Hpv & _).
  destruct (make_frame_columns (make_time_array K n) (run_loop n))
    as (Ct & Cp & Cb & Cf & Cv & Ca & Cd & Ci).
  split.
  - unfold frame_shape. rewrite Ct, Cp, Cb, Cf, Cv, Ca, Cd, Ci.
    by rewrite make_time_array_length.
  - intros k Hk. destruct (Hst k Hk) as (Hb & _ & Hd & Hi & Hf & Ha).
    destruct (Hpv k) as [Hp Hv]; [lia | done |].
    unfold GenerateRandomScenarios.frame_row. rewrite Ct, Cp, Cb, Cf, Cv, Ca, Cd, Ci.
    rewrite make_time_array_lookup in Hb |- * by done. done.
Qed.

(** *** The PID controller *)

Lemma entry_error df n j :
  (∀ k, (k < n)%nat → frame_row df k) → (j < n)%nat →
  current_error_of ball_x (entry j) = tracking_error ball_x df j.
Proof.
  intros Hrows Hj. destruct (Hrows j Hj) as (_ & Hp & _).
  unfold current_error_of, tracking_error. by rewrite Hp.
Qed.

Lemma entry_prev df n j :
  (∀ k, (k < n)%nat → frame_row df k) → (j < n)%nat →
  prev (entry j) = previous_error_at ball_x train_x_initial df j.
Proof.
  intros Hrows Hj. destruct j as [|j]; [done |].
  simpl. apply (entry_error df n); [done | lia].
Qed.

Lemma entry_integral df n j :
  (∀ k, (k < n)%nat → frame_row df k) → (j < n)%nat →
  integral_of K ball_x (entry j) = dt K * error_sum ball_x df j.
Proof.
  intros Hrows. induction j as [|j IH]; intros Hj.
  - unfold integral_of. rewrite (entry_error df n) by done. simpl. ring.
  - unfold integral_of. rewrite (entry_error df n) by done.
    change (integ (entry (S j))) with (integral_of K ball_x (entry j)).
    rewrite IH by lia. simpl. ring.
Qed.

(** C1.  At every step [k] of every run, the recorded applied force is
    [Kp*e_k + Ki*I_k + Kd*(e_k - e_{k-1})/dt], where [e_k = ball_x - s_k]
    is read off the recorded train position, [I_k = dt*(e_0 + ... + e_k)]
    is the recorded integral, and the previous error is seeded with
    [ball_x - train_x0] and replaced by the current error after each step;
    the recorded derivative is the quotient used in the formula. *)
Theorem pid_force_formula df k :
  m K ≠ 0 →
  simulate_scenario = Ok df →
  (k < length (col "applied_force" df))%nat →
  let e := tracking_error ball_x df k in
  let e_prev := previous_error_at ball_x train_x_initial df k in
  let I := dt K * error_sum ball_x df k in
  col "applied_force" df !!! k = Kp K * e + Ki K * I + Kd K * (e - e_prev) / dt K
  ∧ col "error_integral" df !!! k = I
  ∧ col "error_derivative" df !!! k = (e - e_prev) / dt K.
Proof.
  intros _ (n & _ & _ & _ & Hshape & Hrows)%simulate_scenario_rows Hk.
  destruct Hshape as (_ & _ & _ & Hlen & _). rewrite Hlen in Hk.
  destruct (Hrows k Hk) as (_ & _ & _ & _ & Hf & _ & Hd & Hi).
  cbv zeta. rewrite Hf, Hd, Hi.
  unfold F_control_of, derivative_of.
  rewrite (entry_integral df n), (entry_error df n), (entry_prev df n) by done.
  repeat split. unfold Qcdiv. ring.
Qed.

(** *** The dynamics of the train *)

(** The three-way branch of the code is the dead-band formula of the
    specification. *)
Lemma F_friction_of_spec v :
  F_friction_of K np angle_deg v = friction_spec K np angle_deg v.
Proof.
  unfold F_friction_of, friction_spec, abs, sign.
  repeat case_decide; try ring; exfalso; qc_lra.
Qed.

(** C2.  At every step [k]: the recorded acceleration is [F_net/m] for the
    net force [F_ctrl + friction - m*g*sin(angle)], the friction being
    [-mu*m*g*cos(angle)*sign(v_k)] when [|v_k| > 0.01] and 0 otherwise; and
    when a next step exists its velocity and position are the
    semi-implicit Euler update [v_k + a_k*dt], [s_k + v_{k+1}*dt], unless
    that candidate position is negative, in which case both are 0. *)
Theorem dynamics_step df k :
  m K ≠ 0 →
  simulate_scenario = Ok df →
  (k < length (col "train_acceleration" df))%nat →
  let v := col "train_velocity" df !!! k in
  let s := col "train_position" df !!! k in
  let F_ctrl := col "applied_force" df !!! k in
  let a := col "train_acceleration" df !!! k in
  let friction :=
    if decide (dec 1 100 < abs v)
    then - mu K * m K * g K * cos np (deg2rad np angle_deg) * sign v
    else 0 in
  a = (F_ctrl + friction - m K * g K * sin np (deg2rad np angle_deg)) / m K
  ∧ ((S k < length (col "train_acceleration" df))%nat →
     let v1 := v + a * dt K in
     let s1 := s + v1 * dt K in
     col "train_velocity" df !!! S k = (if decide (s1 < 0) then 0 else v1) ∧
     col "train_position" df !!! S k = (if decide (s1 < 0) then 0 else s1)).
Proof.
  intros _ (n & _ & _ & _ & Hshape & Hrows)%simulate_scenario_rows Hk.
  destruct Hshape as (_ & _ & _ & _ & _ & Hlen & _). rewrite Hlen in *.
  destruct (Hrows k Hk) as (_ & Hp & Hv & _ & Hf & Ha & _).
  cbv zeta. rewrite Hp, Hv, Hf, Ha. split.
  - unfold acceleration_of. rewrite F_friction_of_spec.
    unfold friction_spec, F_gravity, angle_rad. f_equal. ring.
  - intros HS. destruct (Hrows (S k) HS) as (_ & Hp' & Hv' & _).
    by rewrite Hp', Hv'.
Qed.

(** The recurrence never leaves the half-line [0 <= s]. *)
Lemma entry_pos_nonneg k : 0 ≤ train_x_initial → 0 ≤ pos (entry k).
Proof.
  intros H0. destruct k as [|k]; [done |].
  change (entry (S k)) with (advance K np angle_deg ball_x (entry k)).
  unfold advance; cbn [pos].
  generalize (pos (entry k) +
    (vel (entry k) + acceleration_of K np angle_deg ball_x (entry k) * dt K) * dt K).
  intros s1. case_decide; qc_lra.
Qed.

(** C9.  In a run that starts at [train_x0 >= 0], the train position
    recorded at every step is [>= 0]. *)
Theorem train_position_nonneg df k :
  m K ≠ 0 →
  0 ≤ train_x_initial →
  simulate_scenario = Ok df →
  (k < length (col "train_position" df))%nat →
  0 ≤ col "train_position" df !!! k.
Proof.
  intros _ H0 (n & _ & _ & _ & Hshape & Hrows)%simulate_scenario_rows Hk.
  destruct Hshape as (_ & Hlen & _). rewrite Hlen in Hk.
  destruct (Hrows k Hk) as (_ & -> & _). by apply entry_pos_nonneg.
Qed.

(** *** The first record *)

Lemma first_row df :
  simulate_scenario = Ok df →
  col "time" df !!! 0%nat = 0 ∧
  col "train_position" df !!! 0%nat = train_x_initial ∧
  col "train_velocity" df !!! 0%nat = 0 ∧
  col "applied_force" df !!! 0%nat =
    (Kp K + Ki K * dt K) * (ball_x - train_x_initial) ∧
  col "error_derivative" df !!! 0%nat = 0 ∧
  col "error_integral" df !!! 0%nat = (ball_x - train_x_initial) * dt K.
Proof.
  intros (n & _ & Hn & _ & _ & Hrows)%simulate_scenario_rows.
  destruct (Hrows 0%nat Hn) as (Ht & Hp & Hv & _ & Hf & _ & Hd & Hi).
  rewrite Ht, Hp, Hv, Hf, Hd, Hi, of_nat_0.
  unfold F_control_of, derivative_of, integral_of, current_error_of; simpl.
  unfold Qcdiv. repeat split; ring.
Qed.

(** C10.  The first record of every run has time 0, the train at
    [train_x0] and velocity 0; the first control force is
    [(Kp + Ki*dt)*(ball_x - train_x0)], a function of the initial
    separation alone. *)
Theorem first_record_at_rest df :
  simulate_scenario = Ok df →
  col "time" df !!! 0%nat = 0 ∧
  col "train_position" df !!! 0%nat = train_x_initial ∧
  col "train_velocity" df !!! 0%nat = 0 ∧
  col "applied_force" df !!! 0%nat =
    (Kp K + Ki K * dt K) * (ball_x - train_x_initial).
Proof. intros (?&?&?&?&_)%first_row. done. Qed.

(** C7, as the code has it.  In the first record the error derivative is
    [(e_0 - seed)/dt = 0], the seed being [ball_x - train_x0 = e_0]; the
    error integral is [(ball_x - train_x0)*dt], since the integral starts
    at 0 and is updated before it is recorded. *)
Theorem first_record_pid_terms df :
  simulate_scenario = Ok df →
  let seed := ball_x - train_x_initial in
  col "error_derivative" df !!! 0%nat = (ball_x - train_x_initial - seed) / dt K
  ∧ col "error_derivative" df !!! 0%nat = 0
  ∧ col "error_integral" df !!! 0%nat = 0 + (ball_x - train_x_initial) * dt K.
Proof.
  intros (_ & _ & _ & _ & Hd & Hi)%first_row. cbv zeta.
  rewrite Hd, Hi. unfold Qcdiv. repeat split; ring.
Qed.

End SimulateFacts.

(** *** The number of records, and the faults of a call *)

Section Outcome.

Import GenerateRandomScenarios.

Context (K : Consts) (np : Numpy).
Context (angle_deg ball_x ball_y_initial train_x_initial : Qc).

Local Abbreviation simulate_scenario :=
  (simulate_scenario K np angle_deg ball_x ball_y_initial train_x_initial).

Lemma num_steps_expected :
  0 < dt K → dt K ≤ simulation_time K →
  dt K ≠ 0 ∧ (1 ≤ int (simulation_time K / dt K))%Z ∧
  Z.to_nat (int (simulation_time K / dt K)) = expected_records K.
Proof.
  intros Hdt Hle.
  pose proof (Qcdiv_ge_1 _ _ Hdt Hle) as H1.
  assert (0 ≤ simulation_time K / dt K) as H0.
  { revert H1. generalize (simulation_time K / dt K). intros q Hq. qc_lra. }
  unfold expected_records. rewrite int_floor by done.
  split; [intros E; rewrite E in Hdt; qc_lra |].
  split; [by apply Qfloor_ge_1 | done].
Qed.

(** A run with at least one step returns its frame of [expected_records]
    rows, whatever the other inputs. *)
Lemma simulate_scenario_total :
  0 < dt K → dt K ≤ simulation_time K →
  ∃ df, simulate_scenario = Ok df ∧ frame_shape (expected_records K) df.
Proof.
  intros Hdt Hle.
  destruct (num_steps_expected Hdt Hle) as (Hnz & H1 & Hn).
  destruct (simulate_scenario_runs K np angle_deg ball_x ball_y_initial
              train_x_initial Hnz H1) as [df Hdf].
  exists df. split; [done |].
  destruct (simulate_scenario_rows _ _ _ _ _ _ _ Hdf)
    as (n & _ & _ & Hint & Hshape & _).
  rewrite <- Hn, <- Hint, Nat2Z.id. done.
Qed.



End Outcome.

Section Scenarios.

Import GenerateRandomScenarios.








(** The arrays other than the ball's are computed from the recurrence,
    in which the ball's height does not occur. *)
Lemma run_loop_ball_free K np angle_deg ball_x train_x_initial y1 y2 n :
  (0 < n)%nat →
  let st1 := run_loop K np angle_deg ball_x y1 train_x_initial n in
  let st2 := run_loop K np angle_deg ball_x y2 train_x_initial n in
  train_position st1 = train_position st2 ∧
  train_velocity st1 = train_velocity st2 ∧
  train_acceleration st1 = train_acceleration st2 ∧
  applied_force st1 = applied_force st2 ∧
  error_derivative_values st1 = error_derivative_values st2 ∧
  error_integral_values st1 = error_integral_values st2.
Proof.
  intros Hn. cbv zeta.
  destruct (run_loop_inv K np angle_deg ball_x y1 train_x_initial n Hn)
    as ((?&?&?&?&?&?&?&?) & Hst1 & Hpv1 & _).
  destruct (run_loop_inv K np angle_deg ball_x y2 train_x_initial n Hn)
    as ((?&?&?&?&?&?&?&?) & Hst2 & Hpv2 & _).
  repeat split; apply (list_eq_total _ _ n); try done; intros k Hk;
    destruct (Hst1 k Hk) as (_ & _ & D1 & I1 & F1 & A1);
    destruct (Hst2 k Hk) as (_ & _ & D2 & I2 & F2 & A2);
    destruct (Hpv1 k ltac:(lia) Hk) as [P1 V1];
    destruct (Hpv2 k ltac:(lia) Hk) as [P2 V2]; congruence.
Qed.

Lemma other_columns K np angle_deg ball_x train_x_initial y1 y2 df1 df2 :
  simulate_scenario K np angle_deg ball_x y1 train_x_initial = Ok df1 →
  simulate_scenario K np angle_deg ball_x y2 train_x_initial = Ok df2 →
  ∀ c : string, c ≠ "falling_object_position"%string → col c df1 = col c df2.
Proof.
  intros (n1 & _ & Hn1 & Hi1 & ->)%simulate_scenario_Ok
         (n2 & _ & _ & Hi2 & ->)%simulate_scenario_Ok c Hc.
  assert (n2 = n1) as -> by lia.
  destruct (run_loop_ball_free K np angle_deg ball_x train_x_initial y1 y2 n1 Hn1)
    as (Ep & Ev & Ea & Ef & Ed & Ei).
  unfold col, make_frame; simpl. rewrite Ep, Ev, Ea, Ef, Ed, Ei.
  repeat case_decide; done.
Qed.

(** C3.  The recorded height of the object at step [k] is a function of
    the elapsed time [t] and the configuration: [ball_y0 - g*t^2/2] when
    this exceeds [landing_surface_y = ball_x*tan(angle)], and
    [landing_surface_y] otherwise.  Computing it touches nothing else: a run
    that differs in the initial height only records the same values in
    every other column. *)
Theorem ball_height_clamped K np angle_deg ball_x ball_y_initial
    train_x_initial df k :
  simulate_scenario K np angle_deg ball_x ball_y_initial train_x_initial
    = Ok df →
  (k < length (col "falling_object_position" df))%nat →
  let t := col "time" df !!! k in
  let y := ball_y_initial - dec 5 10 * g K * t ^ 2 in
  let landing_surface_y := ball_x * tan np (deg2rad np angle_deg) in
  t = of_nat k * dt K
  ∧ col "falling_object_position" df !!! k =
      (if decide (landing_surface_y < y) then y else landing_surface_y)
  ∧ (∀ ball_y_initial' df',
       simulate_scenario K np angle_deg ball_x ball_y_initial' train_x_initial
         = Ok df' →
       ∀ c : string, c ≠ "falling_object_position"%string →
                     col c df' = col c df).
Proof.
  intros Hdf Hk. cbv zeta.
  destruct (simulate_scenario_rows _ _ _ _ _ _ _ Hdf)
    as (n & _ & _ & _ & Hshape & Hrows).
  destruct Hshape as (_ & _ & Hlen & _). rewrite Hlen in Hk.
  destruct (Hrows k Hk) as (Ht & _ & _ & Hb & _).
  split; [done |]. split.
  - rewrite Hb, Ht. unfold ball_height, ball_landing_y, angle_rad.
    repeat case_decide; try done; exfalso; qc_lra.
  - intros y' df' Hdf' c Hc. by apply (other_columns _ _ _ _ _ _ _ _ _ Hdf' Hdf).
Qed.

(** *** The run of five steps, evaluated *)

Lemma ball_height_clamped_witness :
  col "time" short_run !!! 2%nat = of_nat 2 * dt short_consts.
Proof.
  apply (ball_height_clamped short_consts numpy_flat 0 (dec 70 1) (dec 100 1)
           (dec 10 1) short_run 2).
  - vm_compute. reflexivity.
  - vm_compute. lia.
Defined.

Lemma pid_force_formula_witness :
  col "error_integral" short_run !!! 2%nat =
    dt short_consts * error_sum (dec 70 1) short_run 2.
Proof.
  apply (pid_force_formula short_consts numpy_flat 0 (dec 70 1) (dec 100 1)
           (dec 10 1) short_run 2).
  - vm_compute. discriminate.
  - vm_compute. reflexivity.
  - vm_compute. lia.
Defined.

Lemma dynamics_step_witness :
  let a := col "train_acceleration" short_run !!! 0%nat in
  let v1 := col "train_velocity" short_run !!! 0%nat + a * dt short_consts in
  let s1 := col "train_position" short_run !!! 0%nat + v1 * dt short_consts in
  col "train_velocity" short_run !!! 1%nat = (if decide (s1 < 0) then 0 else v1)
  ∧ col "train_position" short_run !!! 1%nat =
      (if decide (s1 < 0) then 0 else s1).
Proof.
  apply (dynamics_step short_consts numpy_flat 0 (dec 70 1) (dec 100 1)
           (dec 10 1) short_run 0).
  - vm_compute. discriminate.
  - vm_compute. reflexivity.
  - vm_compute. lia.
  - vm_compute. lia.
Defined.

Lemma train_position_nonneg_witness :
  0 ≤ col "train_position" short_run !!! 4%nat.
Proof.
  apply (train_position_nonneg short_consts numpy_flat 0 (dec 70 1)
           (dec 100 1) (dec 10 1) short_run 4).
  - vm_compute. discriminate.
  - vm_compute. discriminate.
  - vm_compute. reflexivity.
  - vm_compute. lia.
Defined.

Lemma first_record_at_rest_witness :
  col "time" short_run !!! 0%nat = 0 ∧
  col "train_position" short_run !!! 0%nat = dec 10 1 ∧
  col "train_velocity" short_run !!! 0%nat = 0 ∧
  col "applied_force" short_run !!! 0%nat =
    (Kp short_consts + Ki short_consts * dt short_consts) * (dec 70 1 - dec 10 1).
Proof.
  apply (first_record_at_rest short_consts numpy_flat 0 (dec 70 1) (dec 100 1)
           (dec 10 1) short_run).
  vm_compute. reflexivity.
Defined.

(** C7, refuted.  In the concrete scenario on a flat track the first
    record holds the error integral [60 * 0.02 = 1.2], not 0. *)
Lemma first_integral_not_zero :
  ∃ df,
    simulate_scenario module_consts numpy_flat 0 (dec 70 1) (dec 100 1)
      (dec 10 1) = Ok df
    ∧ col "error_integral" df !!! 0%nat = dec 12 10
    ∧ col "error_integral" df !!! 0%nat ≠ 0.
Proof.
  destruct (simulate_scenario_total module_consts numpy_flat 0 (dec 70 1)
              (dec 100 1) (dec 10 1)) as (df & Hdf & _).
  - vm_compute. reflexivity.
  - vm_compute. discriminate.
  - exists df. split; [exact Hdf |].
    destruct (first_row _ _ _ _ _ _ _ Hdf) as (_ & _ & _ & _ & _ & ->).
    split; [apply Qc_is_canon; vm_compute; reflexivity |].
    vm_compute. discriminate.
Qed.

Lemma first_record_pid_terms_witness :
  col "error_derivative" short_run !!! 0%nat = 0
  ∧ col "error_integral" short_run !!! 0%nat =
      0 + (dec 70 1 - dec 10 1) * dt short_consts.
Proof.
  apply (first_record_pid_terms short_consts numpy_flat 0 (dec 70 1)
           (dec 100 1) (dec 10 1) short_run).
  vm_compute. reflexivity.
Defined.

End Scenarios.

(** * The catch classifier of the animation *)

Section Classifier.

Import AnimateRealtime.

Context (np : Numpy).
Context (train_pos obj_pos : list Qc).
Context (angle_rad obj_x_position : Qc).
Context (frame_indices : list nat).

Local Abbreviation animate :=
  (animate np train_pos obj_pos angle_rad obj_x_position frame_indices).
Local Abbreviation play :=
  (play np train_pos obj_pos angle_rad obj_x_position frame_indices).
Local Abbreviation catch_test :=
  (catch_test np train_pos obj_pos angle_rad obj_x_position frame_indices).
Local Abbreviation below_surface :=
  (below_surface np obj_pos angle_rad obj_x_position frame_indices).
Local Abbreviation verdict :=
  (verdict np train_pos obj_pos angle_rad obj_x_position frame_indices).
Local Abbreviation surface := (surface_y_at_ball_x np angle_rad obj_x_position).

Local Abbreviation landed := (landed np angle_rad obj_x_position frame_indices).
Local Abbreviation decisive :=
  (decisive np train_pos obj_pos angle_rad obj_x_position frame_indices).
Local Abbreviation call :=
  (call np train_pos obj_pos angle_rad obj_x_position frame_indices).
Local Abbreviation in_range := (in_range train_pos obj_pos frame_indices).

Lemma animate_terminal f st :
  ball_caught_at_frame st ≠ None →
  animate f st = (st, [], default 0 (ball_caught_y st)).
Proof.
  intros Hst. unfold AnimateRealtime.animate.
  destruct (ball_caught_at_frame st) eqn:E; [| done]. by rewrite E.
Qed.

Lemma animate_pending_idle f st :
  ball_caught_at_frame st = None → ¬ decisive f →
  ∃ y, animate f st = (st, [], y).
Proof.
  intros Hst Hd. unfold AnimateRealtime.animate. rewrite Hst.
  unfold AnimateRealtime.decisive, AnimateRealtime.catch_test,
    AnimateRealtime.below_surface in Hd.
  repeat case_decide; simpl; rewrite ?Hst; try case_decide; eauto;
    exfalso; apply Hd; auto.
Qed.

Lemma animate_pending_decisive f st :
  ball_caught_at_frame st = None → decisive f →
  ∃ y, animate f st = (landed f, [verdict f], y).
Proof.
  intros Hst Hd.
  unfold AnimateRealtime.animate, AnimateRealtime.verdict. rewrite Hst.
  unfold AnimateRealtime.decisive, AnimateRealtime.catch_test,
    AnimateRealtime.below_surface in *.
  repeat case_decide; simpl; rewrite ?Hst; try case_decide; eauto;
    exfalso; tauto.
Qed.

Lemma call_terminal c log f :
  ball_caught_at_frame c ≠ None → call (c, log) f = (c, log).
Proof.
  intros Hc. unfold AnimateRealtime.call; simpl.
  rewrite animate_terminal by done. by rewrite app_nil_r.
Qed.

Lemma call_idle c log f :
  ball_caught_at_frame c = None → ¬ decisive f → call (c, log) f = (c, log).
Proof.
  intros Hc Hd. unfold AnimateRealtime.call; simpl.
  destruct (animate_pending_idle f c Hc Hd) as [y ->]. by rewrite app_nil_r.
Qed.

Lemma call_decisive c log f :
  ball_caught_at_frame c = None → decisive f →
  call (c, log) f = (landed f, log ++ [verdict f]).
Proof.
  intros Hc Hd. unfold AnimateRealtime.call; simpl.
  by destruct (animate_pending_decisive f c Hc Hd) as [y ->].
Qed.

(** CAUGHT and MISSED are absorbing. *)
Lemma calls_terminal calls c log :
  ball_caught_at_frame c ≠ None → foldl call (c, log) calls = (c, log).
Proof.
  intros Hc. induction calls as [|f calls IH]; [done |].
  simpl. by rewrite call_terminal.
Qed.

Lemma calls_idle calls c log :
  ball_caught_at_frame c = None → Forall (fun f => ¬ decisive f) calls →
  foldl call (c, log) calls = (c, log).
Proof.
  intros Hc. induction 1 as [|f calls Hf _ IH]; [done |].
  simpl. by rewrite call_idle.
Qed.

Lemma calls_first pre f post c log :
  ball_caught_at_frame c = None → Forall (fun f => ¬ decisive f) pre →
  decisive f →
  foldl call (c, log) (pre ++ f :: post) = (landed f, log ++ [verdict f]).
Proof.
  intros Hc Hpre Hf. rewrite foldl_app, calls_idle by done. simpl.
  rewrite call_decisive by done. by apply calls_terminal.
Qed.

(** Every list of frames is idle throughout or has a first decisive frame. *)
Lemma first_decisive calls :
  Forall (fun f => ¬ decisive f) calls ∨
  ∃ pre f post, calls = pre ++ f :: post ∧
                Forall (fun f => ¬ decisive f) pre ∧ decisive f.
Proof.
  induction calls as [|a calls IH]; [by left |].
  destruct (decide (decisive a)) as [Ha | Ha].
  - right. by exists [], a, calls.
  - destruct IH as [IH | (pre & f & post & -> & Hpre & Hf)].
    + left. by constructor.
    + right. exists (a :: pre), f, post. repeat split; [by constructor | done].
Qed.

(** The log is empty exactly while the classifier is pending. *)
Lemma play_log calls :
  (ball_caught_at_frame (play calls fresh).1 = None ∧ (play calls fresh).2 = [])
  ∨ ∃ f, play calls fresh = (landed f, [verdict f]).
Proof.
  unfold AnimateRealtime.play.
  destruct (first_decisive calls) as [Hidle | (pre & f & post & -> & Hpre & Hf)].
  - left. by rewrite calls_idle.
  - right. exists f. by rewrite calls_first.
Qed.

(** X17.  The closure variables [ball_caught_at_frame] and [ball_caught_y]
    and the messages printed by lines 413-461 of [animate]; the label
    drawn on the screen by lines 514-526 is computed anew at every frame
    and is no part of this.  Run on frames inside the data, the variables
    stay unset as long as no frame is decisive, where a frame is decisive
    when it passes the catch test (height at most [surface + 1.0] and
    horizontal distance below 3.0) or shows the object strictly below the
    surface.  The first decisive frame sets them once and for all: it
    prints 'caught' when it passes the catch test and 'missed' otherwise,
    and no later frame changes the variables or prints again, so that at
    most one message is ever printed. *)
Theorem classifier_first_decisive calls :
  Forall in_range calls →
  (Forall (fun f => ¬ decisive f) calls → play calls fresh = (fresh, []))
  ∧ (∀ pre f post,
       calls = pre ++ f :: post →
       Forall (fun f => ¬ decisive f) pre → decisive f →
       play calls fresh = (landed f, [verdict f])
       ∧ (status_of (play calls fresh).2 = CAUGHT ↔ catch_test f)
       ∧ (status_of (play calls fresh).2 = MISSED ↔
            ¬ catch_test f ∧ below_surface f))
  ∧ (length (play calls fresh).2 ≤ 1)%nat
  ∧ (∀ c1 c2,
       calls = c1 ++ c2 →
       status_of (play c1 fresh).2 ≠ PENDING →
       play calls fresh = play c1 fresh).
Proof.
  intros _. split; [| split; [| split]].
  - intros Hidle. unfold AnimateRealtime.play. by rewrite calls_idle.
  - intros pre f post -> Hpre Hf.
    assert (E : play (pre ++ f :: post) fresh = (landed f, [verdict f]))
      by (unfold AnimateRealtime.play; by rewrite calls_first).
    rewrite E. split; [done |]. simpl.
    unfold AnimateRealtime.verdict. unfold AnimateRealtime.decisive in Hf.
    case_decide; simpl; split; split; try done; try tauto.
  - destruct (play_log calls) as [[_ ->] | [f ->]]; simpl; lia.
  - intros c1 c2 -> Hterm. unfold AnimateRealtime.play. rewrite foldl_app.
    destruct (play_log c1) as [[_ Hnil] | [f Hf]].
    + by rewrite Hnil in Hterm.
    + unfold AnimateRealtime.play in Hf. rewrite Hf. by apply calls_terminal.
Qed.

End Classifier.

Section ClassifierRuns.

Import AnimateRealtime.

(** C4.  The classifier of [animate] on two frames of a flat track with
    the ball's column at 70.  At frame 0 the object has reached the
    landing surface (vertical distance 0) and the train is 60 away: the
    object is down before any catch, and by its own message ("landed at
    surface without train") the code means to declare the run missed
    here.  It declares nothing, since line 455 asks for a height strictly
    below the surface; the classifier stays pending, and frame 1, with the
    train 1 away, declares the run caught. *)
Lemma landed_ball_caught_late :
  let run :=
    play numpy_flat late_train_pos late_obj_pos 0 (dec 70 1) late_frames in
  reached_surface numpy_flat late_obj_pos 0 (dec 70 1) late_frames 0
  ∧ ¬ catch_test numpy_flat late_train_pos late_obj_pos 0 (dec 70 1)
        late_frames 0
  ∧ status_of (run [0%nat] fresh).2 = PENDING
  ∧ status_of (run [0; 1]%nat fresh).2 = CAUGHT.
Proof.
  cbv zeta. split; [vm_compute; discriminate |].
  split; [| split; vm_compute; reflexivity].
  intros [_ H]. vm_compute in H. discriminate.
Qed.

Lemma classifier_first_decisive_witness :
  (length (play numpy_flat late_train_pos late_obj_pos 0 (dec 70 1)
             late_frames [0; 1]%nat fresh).2 ≤ 1)%nat.
Proof.
  apply (classifier_first_decisive numpy_flat late_train_pos late_obj_pos 0
           (dec 70 1) late_frames [0; 1]%nat).
  repeat constructor; vm_compute; lia.
Defined.

End ClassifierRuns.

(** * The catch search of calculate_metrics *)

Section CatchSearch.

Import AnalyzeRandomScenarios.

(** The search returns the first row at which the ball is at most 1.0
    above the surface and the train at most 3.0 from the ball. *)
Lemma find_catch_first ball_x ball_landing_y rows t d :
  find_catch ball_x ball_landing_y rows = Some (t, d) ↔
  ∃ pre train_x ball_y post,
    rows = pre ++ (t, train_x, ball_y) :: post ∧
    d = abs (train_x - ball_x) ∧
    ball_y ≤ ball_landing_y + dec 1 1 ∧ d ≤ dec 3 1 ∧
    Forall (fun '(_, x, y) =>
              ¬ (y ≤ ball_landing_y + dec 1 1 ∧ abs (x - ball_x) ≤ dec 3 1))
           pre.
Proof.
  induction rows as [|[[t0 x0] y0] rows IH]; simpl.
  - split; [done |]. intros (pre & ? & ? & ? & E & _). by destruct pre.
  - destruct (decide (y0 ≤ ball_landing_y + dec 1 1 ∧
                      abs (x0 - ball_x) ≤ dec 3 1)) as [[Hy Hx] | Hno].
    + rewrite !decide_True by done. split.
      * intros [= <- <-]. exists [], x0, y0, rows. by repeat split.
      * intros ([|[[t1 x1] y1] pre] & x & y & post & E & -> & ? & ? & Hpre).
        -- by injection E as -> -> -> _.
        -- injection E as -> -> -> _. apply Forall_cons_1 in Hpre as [Hc _].
           by destruct Hc.
    + assert (find_catch ball_x ball_landing_y rows = Some (t, d) ↔
              (if decide (y0 ≤ ball_landing_y + dec 1 1)
               then if decide (abs (x0 - ball_x) ≤ dec 3 1)
                    then Some (t0, abs (x0 - ball_x))
                    else find_catch ball_x ball_landing_y rows
               else find_catch ball_x ball_landing_y rows) = Some (t, d)) as <-.
      { repeat case_decide; tauto. }
      rewrite IH. split.
      * intros (pre & x & y & post & -> & -> & ? & ? & Hpre).
        exists ((t0, x0, y0) :: pre), x, y, post. repeat split; try done.
        by constructor.
      * intros ([|[[t1 x1] y1] pre] & x & y & post & E & -> & ? & ? & Hpre).
        -- injection E as -> -> -> _. tauto.
        -- injection E as -> -> -> ->. apply Forall_cons_1 in Hpre as [_ Hpre].
           exists pre, x, y, post. by repeat split.
Qed.

End CatchSearch.

(** * Further properties of the simulation loop *)

(** Goals with products over [Qc], decided on the underlying fractions. *)
Ltac qc_nra :=
  unfold Qclt, Qcle, Qcminus in *;
  unfold Qcopp, Qcplus, Qcmult, dec, Q2Qc in *;
  cbn [this] in *; rewrite ?Qred_correct in *; nra.

Lemma of_nat_nonneg k : 0 ≤ of_nat k.
Proof.
  unfold of_nat, Qc_of_Z, Qcle; simpl.
  rewrite <- (Zle_Qle 0). lia.
Qed.

Lemma of_nat_mono j k : (j ≤ k)%nat → of_nat j ≤ of_nat k.
Proof.
  intros H. unfold of_nat, Qc_of_Z, Qcle; simpl.
  rewrite <- Zle_Qle. lia.
Qed.

Section Falling.

Import GenerateRandomScenarios.

Context (K : Consts) (np : Numpy).
Context (angle_deg ball_x ball_y_initial train_x_initial : Qc).

Local Abbreviation ball_height :=
  (ball_height K np angle_deg ball_x ball_y_initial).
Local Abbreviation landing := (ball_landing_y np angle_deg ball_x).

Lemma ball_height_ge t : landing ≤ ball_height t.
Proof.
  unfold GenerateRandomScenarios.ball_height.
  case_decide as H; [done |].
  revert H. generalize (ball_y_initial - dec 5 10 * g K * t ^ 2).
  intros y H. qc_lra.
Qed.

Lemma ball_height_mono_steps j k :
  0 ≤ g K → (j ≤ k)%nat →
  ball_height (of_nat k * dt K) ≤ ball_height (of_nat j * dt K).
Proof.
  intros Hg Hjk. unfold GenerateRandomScenarios.ball_height.
  assert (Hsq : ball_y_initial - dec 5 10 * g K * (of_nat k * dt K) ^ 2
                ≤ ball_y_initial - dec 5 10 * g K * (of_nat j * dt K) ^ 2).
  { simpl. rewrite !Qcmult_1_r.
    pose proof (of_nat_nonneg j) as Hj. pose proof (of_nat_mono j k Hjk) as Hk.
    revert Hj Hk. generalize (of_nat j) (of_nat k) (dt K). intros a b d Ha Hab.
    assert (Ht : a * d * (a * d) ≤ b * d * (b * d)).
    { replace (a * d * (a * d)) with (a * a * (d * d)) by ring.
      replace (b * d * (b * d)) with (b * b * (d * d)) by ring.
      assert (a * a ≤ b * b) by qc_nra.
      assert (0 ≤ d * d) by qc_nra.
      revert H H0. generalize (a * a) (b * b) (d * d). intros. qc_nra. }
    revert Hg Ht. generalize (g K) (a * d * (a * d)) (b * d * (b * d)).
    intros G x y Hg Ht. qc_nra. }
  revert Hsq.
  generalize (ball_y_initial - dec 5 10 * g K * (of_nat k * dt K) ^ 2)
             (ball_y_initial - dec 5 10 * g K * (of_nat j * dt K) ^ 2).
  intros y2 y1 Hsq. repeat case_decide; qc_nra.
Qed.

(** X1.  With a gravity that is not negative, the recorded height of the
    object never rises from one step to a later one and never lies below
    the landing height [ball_x*tan(angle)]; once a record holds the landing
    height, every later record holds it too. *)
Theorem ball_never_rises df j k :
  0 ≤ g K →
  simulate_scenario K np angle_deg ball_x ball_y_initial train_x_initial
    = Ok df →
  (j ≤ k)%nat → (k < length (col "falling_object_position" df))%nat →
  let y := col "falling_object_position" df in
  let landing_y := ball_x * tan np (deg2rad np angle_deg) in
  landing_y ≤ y !!! k ∧ y !!! k ≤ y !!! j ∧
  (y !!! j = landing_y → y !!! k = landing_y).
Proof.
  intros Hg (n & _ & _ & _ & Hshape & Hrows)%simulate_scenario_rows Hjk Hk.
  destruct Hshape as (_ & _ & Hlen & _). rewrite Hlen in Hk. cbv zeta.
  destruct (Hrows k Hk) as (_ & _ & _ & -> & _).
  destruct (Hrows j ltac:(lia)) as (_ & _ & _ & -> & _).
  pose proof (ball_height_ge (of_nat k * dt K)) as Hge.
  pose proof (ball_height_mono_steps j k Hg Hjk) as Hmono.
  change (ball_x * tan np (deg2rad np angle_deg)) with landing.
  split; [done |]. split; [done |].
  intros E. rewrite E in Hmono. by apply Qcle_antisym.
Qed.

End Falling.

Section FallingWitness.

Import GenerateRandomScenarios.

Lemma ball_never_rises_witness :
  col "falling_object_position" short_run !!! 3%nat
    ≤ col "falling_object_position" short_run !!! 1%nat.
Proof.
  apply (ball_never_rises short_consts numpy_flat 0 (dec 70 1) (dec 100 1)
           (dec 10 1) short_run 1 3).
  - vm_compute. discriminate.
  - vm_compute. reflexivity.
  - lia.
  - vm_compute. lia.
Defined.

End FallingWitness.

Section Feedback.

Import GenerateRandomScenarios.

Context (K : Consts) (np : Numpy).
Context (angle_deg ball_x ball_y_initial train_x_initial : Qc).

Local Abbreviation entry := (entry K np angle_deg ball_x train_x_initial).
Local Abbreviation simulate_scenario :=
  (simulate_scenario K np angle_deg ball_x ball_y_initial train_x_initial).

(** X2.  From the second record on, the recorded error derivative is the
    backward difference of the recorded train position with the sign
    reversed, [(s_{k} - s_{k+1})/dt]; whenever the train is off the hard
    stop it is exactly minus the recorded velocity, so that the derivative
    term of the controller is a velocity feedback. *)
Theorem derivative_is_velocity df k :
  m K ≠ 0 →
  simulate_scenario = Ok df →
  (S k < length (col "error_derivative" df))%nat →
  let s := col "train_position" df in
  let v := col "train_velocity" df in
  let d := col "error_derivative" df in
  d !!! S k = (s !!! k - s !!! S k) / dt K
  ∧ (s !!! S k ≠ 0 → d !!! S k = - v !!! S k).
Proof.
  intros _ Hdf Hk.
  destruct (simulate_scenario_rows _ _ _ _ _ _ _ Hdf)
    as (n & Hdt & _ & _ & Hshape & Hrows).
  destruct Hshape as (_ & _ & _ & _ & _ & _ & Hlen & _). rewrite Hlen in Hk.
  destruct (Hrows k ltac:(lia)) as (_ & Hp & _).
  destruct (Hrows (S k) Hk) as (_ & Hp' & Hv' & _ & _ & _ & Hd' & _).
  cbv zeta. rewrite Hp, Hp', Hv', Hd'.
  assert (E : derivative_of K ball_x (entry (S k))
              = (pos (entry k) - pos (entry (S k))) / dt K).
  { unfold derivative_of, current_error_of.
    change (prev (entry (S k))) with (ball_x - pos (entry k)).
    unfold Qcdiv. ring. }
  split; [done |]. rewrite E.
  change (entry (S k)) with (advance K np angle_deg ball_x (entry k)).
  unfold advance; cbn [pos vel].
  case_decide; [done |]. intros _. by field.
Qed.

(** X3.  A train that rests at the origin under a net force that does not
    push it up the track stays there: with position 0, velocity 0 and an
    acceleration that is not positive at step [k], step [k+1] again has
    position 0 and velocity 0. *)
Theorem rest_at_origin df k :
  m K ≠ 0 →
  simulate_scenario = Ok df →
  (S k < length (col "train_position" df))%nat →
  col "train_position" df !!! k = 0 →
  col "train_velocity" df !!! k = 0 →
  col "train_acceleration" df !!! k ≤ 0 →
  col "train_position" df !!! S k = 0 ∧ col "train_velocity" df !!! S k = 0.
Proof.
  intros _ Hdf Hk.
  destruct (simulate_scenario_rows _ _ _ _ _ _ _ Hdf)
    as (n & Hdt & _ & _ & Hshape & Hrows).
  destruct Hshape as (_ & Hlen & _). rewrite Hlen in Hk.
  destruct (Hrows k ltac:(lia)) as (_ & -> & -> & _ & _ & -> & _).
  destruct (Hrows (S k) Hk) as (_ & -> & -> & _).
  intros Hp Hv Ha.
  change (entry (S k)) with (advance K np angle_deg ball_x (entry k)).
  unfold advance; cbn [pos vel]. rewrite Hp, Hv.
  revert Ha. generalize (acceleration_of K np angle_deg ball_x (entry k)).
  intros a Ha. case_decide as Hneg; [done |].
  assert (Hz : a * (dt K * dt K) = 0).
  { apply Qcle_antisym.
    - assert (0 ≤ dt K * dt K) by qc_nra.
      revert H. generalize (dt K * dt K). intros q Hq. qc_nra.
    - apply Qcnot_lt_le. intros Hlt. apply Hneg.
      replace (0 + (0 + a * dt K) * dt K) with (a * (dt K * dt K)) by ring.
      done. }
  apply Qcmult_integral in Hz as [-> | Hz].
  - split; ring.
  - apply Qcmult_integral in Hz. tauto.
Qed.

End Feedback.

Section FeedbackWitness.

Import GenerateRandomScenarios.

Lemma derivative_is_velocity_witness :
  col "error_derivative" short_run !!! 1%nat
    = - col "train_velocity" short_run !!! 1%nat.
Proof.
  apply (derivative_is_velocity short_consts numpy_flat 0 (dec 70 1)
           (dec 100 1) (dec 10 1) short_run 0).
  - vm_compute. discriminate.
  - vm_compute. reflexivity.
  - vm_compute. lia.
  - vm_compute. discriminate.
Defined.

Lemma rest_at_origin_witness :
  col "train_position" GenerateRandomScenariosMain.slope_run !!! 1%nat = 0
  ∧ col "train_velocity" GenerateRandomScenariosMain.slope_run !!! 1%nat = 0.
Proof.
  apply (rest_at_origin short_consts GenerateRandomScenariosMain.numpy_30
           (dec 30 1) (dec 1 1) (dec 100 1) 0
           GenerateRandomScenariosMain.slope_run 0).
  - vm_compute. discriminate.
  - vm_compute. reflexivity.
  - vm_compute. lia.
  - apply Qc_is_canon. vm_compute. reflexivity.
  - apply Qc_is_canon. vm_compute. reflexivity.
  - vm_compute. discriminate.
Defined.

End FeedbackWitness.

(** * The scenarios of main *)

Section MainScenarios.

Import GenerateRandomScenarios GenerateRandomScenariosMain.

Lemma uniform_range a b u :
  a ≤ b → 0 ≤ u → u < 1 → a ≤ uniform a b u ∧ uniform a b u ≤ b.
Proof.
  intros Hab H0 H1. unfold uniform.
  assert (H : 0 ≤ (b - a) * u ∧ (b - a) * u ≤ b - a).
  { assert (0 ≤ b - a) as Hd by qc_nra.
    revert Hd. generalize (b - a). intros d Hd. qc_nra. }
  revert H. generalize ((b - a) * u). intros x [Hx1 Hx2]. qc_nra.
Qed.

(** The parameters of every scenario lie in the ranges of the script. *)
Lemma draw_ranges rand i :
  (∀ j, 0 ≤ rand j ∧ rand j < 1) →
  let sc := draw rand i in
  (0 ≤ angle sc ∧ angle sc ≤ dec 45 1) ∧
  (dec 20 1 ≤ ball_x sc ∧ ball_x sc ≤ dec 100 1) ∧
  (dec 30 1 ≤ ball_y_initial sc ∧ ball_y_initial sc ≤ dec 100 1) ∧
  (0 ≤ train_x_initial sc ∧ train_x_initial sc + dec 20 1 ≤ ball_x sc).
Proof.
  intros Hr. cbv zeta. unfold draw; cbn [angle ball_x ball_y_initial train_x_initial].
  pose proof (uniform_range 0 (dec 45 1) (rand (4 * i)%nat)) as Ha.
  pose proof (uniform_range (dec 20 1) (dec 100 1) (rand (4 * i + 1)%nat)) as Hb.
  pose proof (uniform_range (dec 30 1) (dec 100 1) (rand (4 * i + 2)%nat)) as Hy.
  destruct (Hr (4 * i)%nat), (Hr (4 * i + 1)%nat), (Hr (4 * i + 2)%nat),
    (Hr (4 * i + 3)%nat).
  split; [apply Ha; try done; vm_compute; discriminate |].
  split; [apply Hb; try done; vm_compute; discriminate |].
  split; [apply Hy; try done; vm_compute; discriminate |].
  destruct Hb as [Hb1 Hb2]; [vm_compute; discriminate | done | done |].
  revert Hb1 Hb2.
  generalize (uniform (dec 20 1) (dec 100 1) (rand (4 * i + 1)%nat)).
  intros bx Hb1 Hb2.
  assert (Hm : max 0 (bx - dec 20 1) = bx - dec 20 1).
  { unfold max. case_decide; [done |]. apply Qcle_antisym; qc_nra. }
  rewrite Hm.
  destruct (uniform_range 0 (bx - dec 20 1) (rand (4 * i + 3)%nat));
    [qc_nra | done | done |].
  split; [done |].
  revert H8. generalize (uniform 0 (bx - dec 20 1) (rand (4 * i + 3)%nat)).
  intros t Ht. qc_nra.
Qed.

(** The calls of [main] succeed together, each on its own scenario. *)
Lemma run_all_total K np scs :
  0 < dt K → dt K ≤ simulation_time K →
  ∃ dfs, run_all K np scs = Ok dfs ∧
         Forall2 (fun sc df =>
                    simulate_scenario K np (angle sc) (ball_x sc)
                      (ball_y_initial sc) (train_x_initial sc) = Ok df)
                 scs dfs.
Proof.
  intros Hdt Hle. induction scs as [|sc scs (dfs & Hrun & Hall)].
  - exists []. by split.
  - destruct (simulate_scenario_total K np (angle sc) (ball_x sc)
                (ball_y_initial sc) (train_x_initial sc) Hdt Hle)
      as (df & Hdf & _).
    exists (df :: dfs). simpl. rewrite Hdf, Hrun. split; [done |].
    by constructor.
Qed.

(** X5.  Whatever values in [0, 1) the random generator returns, [main]
    with the constants of the module completes its ten calls, and the
    frame of each call is the run of a scenario whose train starts at a
    position that is not negative and at least 20 m short of the ball;
    each frame has 2000 rows, and no recorded train position in it is
    negative. *)
Theorem main_scenarios_valid np rand :
  (∀ j, 0 ≤ rand j ∧ rand j < 1) →
  ∃ dfs,
    main module_consts np rand = Ok dfs ∧ length dfs = 10%nat ∧
    ∀ i df, dfs !! i = Some df →
      let sc := draw rand i in
      simulate_scenario module_consts np (angle sc) (ball_x sc)
        (ball_y_initial sc) (train_x_initial sc) = Ok df
      ∧ 0 ≤ train_x_initial sc
      ∧ train_x_initial sc + dec 20 1 ≤ ball_x sc
      ∧ frame_shape 2000 df
      ∧ ∀ k, (k < 2000)%nat → 0 ≤ col "train_position" df !!! k.
Proof.
  intros Hr.
  destruct (run_all_total module_consts np (draw rand <$> seq 0 10))
    as (dfs & Hrun & Hall); [vm_compute; reflexivity | vm_compute; discriminate |].
  exists dfs. split; [done |].
  pose proof (Forall2_length _ _ _ Hall) as Hlen.
  rewrite length_fmap, length_seq in Hlen. split; [done |].
  intros i df Hi. cbv zeta.
  assert (Hsc : (draw rand <$> seq 0 10) !! i = Some (draw rand i)).
  { rewrite list_lookup_fmap, lookup_seq_lt; [done |].
    apply lookup_lt_Some in Hi. lia. }
  pose proof (Forall2_lookup_lr _ _ _ _ _ _ Hall Hsc Hi) as Hdf.
  destruct (draw_ranges rand i Hr) as (_ & _ & _ & Ht0 & Ht20).
  do 3 (split; [done |]).
  destruct (simulate_scenario_rows _ _ _ _ _ _ _ Hdf)
    as (n & _ & _ & Hn & Hshape & Hrows).
  assert (Hint : int (simulation_time module_consts / dt module_consts)
                 = 2000%Z) by (vm_compute; reflexivity).
  assert (n = 2000%nat) as -> by lia.
  split; [done |]. intros k Hk.
  destruct (Hrows k Hk) as (_ & -> & _). by apply entry_pos_nonneg.
Qed.

Lemma main_scenarios_valid_witness :
  ∃ dfs, main module_consts numpy_flat (fun _ => 0) = Ok dfs
         ∧ length dfs = 10%nat.
Proof.
  destruct (main_scenarios_valid numpy_flat (fun _ => 0))
    as (dfs & Hmain & Hlen & _).
  - intros _. split; vm_compute; [discriminate | reflexivity].
  - exists dfs. split; [exact Hmain | exact Hlen].
Defined.

End MainScenarios.

Section Friction.

Import GenerateRandomScenarios.

(** X4.  With a friction coefficient and a normal force that are not
    negative, the friction force of the loop opposes the motion: its
    product with the velocity is never positive, its size never exceeds
    [mu*N], and it vanishes inside the dead band [|v| <= 0.01]. *)
Theorem friction_opposes_motion K np angle_deg v :
  0 ≤ mu K → 0 ≤ m K * g K * cos np (deg2rad np angle_deg) →
  let F := F_friction_of K np angle_deg v in
  let N := m K * g K * cos np (deg2rad np angle_deg) in
  F * v ≤ 0 ∧ abs F ≤ mu K * N ∧ (abs v ≤ dec 1 100 → F = 0).
Proof.
  intros Hmu HN. cbv zeta. unfold F_friction_of, angle_rad.
  revert HN. generalize (m K * g K * cos np (deg2rad np angle_deg)).
  intros N HN.
  assert (HmuN : 0 ≤ mu K * N) by qc_nra.
  replace (- mu K * N) with (- (mu K * N)) by ring.
  revert HmuN. generalize (mu K * N). intros f Hf.
  unfold abs. repeat case_decide; repeat split; try done; try ring;
    try qc_nra; intros; exfalso; qc_nra.
Qed.

Lemma friction_opposes_motion_witness :
  F_friction_of module_consts numpy_flat 0 (dec 2 1) * dec 2 1 ≤ 0.
Proof.
  apply (friction_opposes_motion module_consts numpy_flat 0 (dec 2 1)).
  - vm_compute. discriminate.
  - vm_compute. discriminate.
Defined.

End Friction.

(** * The frames of the animation *)

Section Frames.

Import AnimateRealtimeSetup.

Lemma seq_strongly_sorted a n : StronglySorted lt (seq a n).
Proof.
  revert a. induction n as [|n IH]; intros a; simpl; constructor; [done |].
  apply Forall_forall. intros x Hx%elem_of_seq. lia.
Qed.

Lemma filter_strongly_sorted (P : nat → Prop) `{!∀ x, Decision (P x)} l :
  StronglySorted lt l → StronglySorted lt (filter P l).
Proof.
  induction 1 as [|x l Hl IH Hx]; [constructor |].
  rewrite filter_cons. case_decide; [| done].
  constructor; [done |].
  apply Forall_forall. intros y [_ Hy]%list_elem_of_filter.
  by apply (proj1 (Forall_forall _ _) Hx).
Qed.

Lemma range_step_sorted n step :
  (0 < step)%nat → StronglySorted lt (range_step n step).
Proof.
  intros Hs. unfold range_step.
  eapply StronglySorted_fmap; [| apply seq_strongly_sorted].
  intros x y Hxy. simpl. nia.
Qed.

Lemma range_step_bound n step f :
  (0 < step)%nat → f ∈ range_step n step → (f < n)%nat.
Proof.
  intros Hs (j & -> & Hj%elem_of_seq)%list_elem_of_fmap.
  pose proof (Nat.Div0.mul_div_le (n + step - 1) step). nia.
Qed.

Lemma range_step_head n step :
  (0 < step)%nat → (0 < n)%nat → head (range_step n step) = Some 0%nat.
Proof.
  intros Hs Hn. unfold range_step.
  assert (0 < (n + step - 1) / step)%nat as Hc.
  { apply Nat.div_str_pos. lia. }
  destruct ((n + step - 1) / step)%nat; [lia | done].
Qed.

Lemma lt_sorted_le l : StronglySorted lt l → Sorted Nat.le l.
Proof.
  induction 1 as [|x l Hl IH Hx]; constructor; [done |].
  destruct l as [|y l]; constructor.
  apply Forall_cons_1 in Hx as [Hy _]. lia.
Qed.

(** Sorting a list that is already in ascending order changes nothing. *)
Lemma merge_sort_sorted l :
  StronglySorted lt l → merge_sort Nat.le l = l.
Proof.
  intros Hl. apply (Sorted_unique Nat.le).
  - apply Sorted_merge_sort. intros x y. lia.
  - by apply lt_sorted_le.
  - apply merge_sort_Permutation.
Qed.

Lemma snoc_strongly_sorted l c :
  StronglySorted lt l → Forall (fun f => (f < c)%nat) l →
  StronglySorted lt (l ++ [c]).
Proof.
  intros Hl Hc. apply StronglySorted_app.
  split; [| split; [done | by repeat constructor]].
  intros x y Hx ->%list_elem_of_singleton.
  exact (proj1 (Forall_forall _ _) Hc x Hx).
Qed.

Section Shape.

Context (time train_pos obj_pos : list Qc).
Context (obj_x_position ball_landing_y : Qc).
Context (fps : Z) (speed : Qc).

Local Abbreviation catch_frame :=
  (catch_frame time train_pos obj_pos obj_x_position ball_landing_y).
Local Abbreviation catch_frame_test :=
  (catch_frame_test train_pos obj_pos obj_x_position ball_landing_y).
Local Abbreviation frame_skip := (frame_skip time fps speed).
Local Abbreviation frame_indices :=
  (frame_indices time train_pos obj_pos obj_x_position ball_landing_y fps speed).

Lemma frame_skip_pos : (0 < frame_skip)%nat.
Proof. unfold AnimateRealtimeSetup.frame_skip. lia. Qed.

(** The catch frame is the first row that passes the test. *)
Lemma catch_frame_Some c :
  catch_frame = Some c ↔
  (c < length time)%nat ∧ catch_frame_test c ∧
  ∀ j, (j < c)%nat → ¬ catch_frame_test j.
Proof.
  unfold AnimateRealtimeSetup.catch_frame. split.
  - destruct (list_find _ _) as [[i x]|] eqn:E; [| done].
    intros [= <-]. apply list_find_Some in E as (Hi & Hx & Hfirst).
    apply lookup_seq in Hi as [-> Hi]. simpl in *.
    split; [done |]. split; [done |]. intros j Hj.
    apply (Hfirst j j); [apply lookup_seq_lt; lia | done].
  - intros (Hc & Ht & Hfirst).
    assert (list_find catch_frame_test (seq 0 (length time)) = Some (c, c))
      as ->; [| done].
    apply list_find_Some. split; [by apply lookup_seq_lt |].
    split; [done |]. intros j y [-> _]%lookup_seq Hj. by apply Hfirst.
Qed.

Lemma frames_from_facts step :
  (0 < step)%nat →
  let fi := frames_from time train_pos obj_pos obj_x_position ball_landing_y
              step in
  StronglySorted lt fi
  ∧ Forall (fun f => (f < length time)%nat) fi
  ∧ ((0 < length time)%nat → head fi = Some 0%nat)
  ∧ match catch_frame with
    | Some c =>
        last fi = Some c ∧ catch_frame_test c ∧
        (∀ j, (j < c)%nat → ¬ catch_frame_test j)
    | None => fi = range_step (length time) step
    end.
Proof.
  intros Hs. cbv zeta.
  pose proof (range_step_sorted (length time) step Hs) as Hsorted.
  assert (Hbound : Forall (fun f => (f < length time)%nat)
                     (range_step (length time) step)).
  { apply Forall_forall. intros f. by apply range_step_bound. }
  unfold AnimateRealtimeSetup.frames_from.
  destruct catch_frame as [c|] eqn:Hc.
  - apply catch_frame_Some in Hc as (Hclt & Htest & Hfirst).
    set (kept := filter (fun f => (f ≤ c)%nat) (range_step (length time) step)).
    assert (Hkept : StronglySorted lt kept) by by apply filter_strongly_sorted.
    assert (Hle : Forall (fun f => (f ≤ c)%nat) kept).
    { apply Forall_forall. by intros f [? _]%list_elem_of_filter. }
    assert (Hin : Forall (fun f => (f < length time)%nat) kept).
    { apply Forall_forall. intros f [? _]%list_elem_of_filter. lia. }
    assert (Hhead : (0 < length time)%nat → head kept = Some 0%nat).
    { intros Hn. pose proof (range_step_head _ _ Hs Hn) as Hh.
      unfold kept. destruct (range_step (length time) step); [done |].
      injection Hh as ->. rewrite filter_cons. rewrite decide_True by lia. done. }
    clearbody kept. case_decide as Hmem.
    + rewrite merge_sort_sorted by done.
      split; [done |]. split; [done |]. split; [done |].
      split; [| done].
      apply list_elem_of_split in Hmem as (l1 & l2 & E). rewrite E in *.
      destruct l2 as [|y l2]; [apply last_snoc |].
      apply StronglySorted_app in Hkept as (_ & _ & Hc2).
      apply StronglySorted_inv in Hc2 as [_ Hc2].
      apply Forall_cons_1 in Hc2 as [Hy _].
      apply Forall_app in Hle as [_ Hle].
      apply Forall_cons_1 in Hle as [_ Hle].
      apply Forall_cons_1 in Hle as [Hy' _]. lia.
    + assert (Hlt : Forall (fun f => (f < c)%nat) kept).
      { apply Forall_forall. intros f Hf.
        pose proof (proj1 (Forall_forall _ _) Hle f Hf) as Hfc.
        assert (f ≠ c) by (intros ->; done). simpl in Hfc. lia. }
      rewrite merge_sort_sorted by by apply snoc_strongly_sorted.
      split; [by apply snoc_strongly_sorted |].
      split; [apply Forall_app; split; [done | by repeat constructor] |].
      split; [| by rewrite last_snoc].
      intros Hn. specialize (Hhead Hn). by destruct kept.
  - split; [done |]. split; [done |].
    split; [by apply range_step_head | done].
Qed.

Lemma frame_indices_facts :
  StronglySorted lt frame_indices
  ∧ Forall (fun f => (f < length time)%nat) frame_indices
  ∧ ((0 < length time)%nat → head frame_indices = Some 0%nat)
  ∧ match catch_frame with
    | Some c =>
        last frame_indices = Some c ∧ catch_frame_test c ∧
        (∀ j, (j < c)%nat → ¬ catch_frame_test j)
    | None => frame_indices = range_step (length time) frame_skip
    end.
Proof. exact (frames_from_facts frame_skip frame_skip_pos). Qed.

(** X6.  The frame list that [create_realtime_animation] builds.  On data
    without rows the read [self.time[-1]] of line 359 raises [IndexError],
    as the reads of a last cell before it do; on data whose last time
    (times the frame rate) is 0, a file of one row for instance, line 359
    raises [OverflowError], or [ValueError] when the speed is 0 as well;
    no frame is chosen then.  Otherwise the frames are row indices of the
    data in strictly ascending order, starting at row 0.  When a catch
    frame exists, that is, a first row with the train less than 2 m from
    the ball's column and the ball less than 5 m from the landing height,
    the frames stop there: the catch frame is the last one.  Without a
    catch frame they are every [step]-th row for the positive [step] of
    line 359, which is 1 at speed 0. *)
Theorem frame_indices_shape :
  let time_last := time !!! (length time - 1)%nat in
  let frames :=
    frame_indices_checked time train_pos obj_pos obj_x_position ball_landing_y
      fps speed in
  (time = [] → frames = Raise IndexError)
  ∧ (time ≠ [] → time_last * Qc_of_Z fps = 0 →
     frames = Raise (if decide (speed = 0) then ValueError else OverflowError))
  ∧ (time ≠ [] → time_last * Qc_of_Z fps ≠ 0 →
     ∃ fi step,
       frames = Ok fi ∧ (0 < step)%nat ∧ (speed = 0 → step = 1%nat)
       ∧ StronglySorted lt fi
       ∧ Forall (fun f => (f < length time)%nat) fi
       ∧ head fi = Some 0%nat
       ∧ match catch_frame with
         | Some c =>
             last fi = Some c ∧ catch_frame_test c ∧
             (∀ j, (j < c)%nat → ¬ catch_frame_test j)
         | None => fi = range_step (length time) step
         end).
Proof.
  cbv zeta.
  unfold frame_indices_checked, frame_skip_checked.
  split; [| split].
  - intros ->. done.
  - intros Hne Hz. rewrite decide_False by done.
    destruct (decide (speed = 0)) as [Hs | Hs].
    + by rewrite decide_True.
    + rewrite decide_True; [done |]. rewrite Hz. unfold Qcdiv. ring.
  - intros Hne Hnz. rewrite decide_False by done.
    assert (0 < length time)%nat as Hlen by (destruct time; [done | simpl; lia]).
    destruct (decide (speed = 0)) as [Hs | Hs].
    + rewrite decide_False by done.
      destruct (frames_from_facts 1 ltac:(lia)) as (H1 & H2 & H3 & H4).
      exists (frames_from time train_pos obj_pos obj_x_position
                ball_landing_y 1), 1%nat.
      split; [done |]. split; [lia |]. split; [done |].
      split; [done |]. split; [done |]. split; [by apply H3 | done].
    + rewrite decide_False.
      * destruct (frames_from_facts frame_skip frame_skip_pos)
          as (H1 & H2 & H3 & H4).
        exists (frames_from time train_pos obj_pos obj_x_position
                  ball_landing_y frame_skip), frame_skip.
        split; [done |]. split; [apply frame_skip_pos |].
        split; [done |].
        split; [done |]. split; [done |]. split; [by apply H3 | done].
      * intros Hq. apply Hnz.
        transitivity
          (time !!! (length time - 1)%nat * Qc_of_Z fps / speed * speed);
          [by field | rewrite Hq; ring].
Qed.

(** X7.  When the three arrays of the data have the same length, every
    frame number that [FuncAnimation] passes to [animate] selects a frame
    index inside the arrays, so that no read of [animate] is out of
    bounds. *)
Theorem frames_in_range :
  length train_pos = length time → length obj_pos = length time →
  Forall (AnimateRealtime.in_range train_pos obj_pos frame_indices)
         (seq 0 (length frame_indices)).
Proof.
  intros Hp Ho. apply Forall_forall. intros f Hf%elem_of_seq.
  destruct frame_indices_facts as (_ & Hbound & _).
  assert (Hidx : (frame_indices !!! f < length time)%nat).
  { apply (proj1 (Forall_forall _ _) Hbound).
    apply list_elem_of_lookup_total_2. lia. }
  unfold AnimateRealtime.in_range. rewrite Hp, Ho. repeat split; [lia | done..].
Qed.

End Shape.

Lemma frame_indices_shape_witness :
  frame_indices_checked single_time single_train_pos single_obj_pos
    (dec 70 1) 0 30 1 = Raise OverflowError
  ∧ ∃ fi step,
      frame_indices_checked late_time AnimateRealtime.late_train_pos
        AnimateRealtime.late_obj_pos (dec 70 1) 0 30 1 = Ok fi
      ∧ (0 < step)%nat ∧ head fi = Some 0%nat.
Proof.
  split.
  - apply (frame_indices_shape single_time single_train_pos single_obj_pos
             (dec 70 1) 0 30 1).
    + discriminate.
    + vm_compute. reflexivity.
  - destruct (frame_indices_shape late_time AnimateRealtime.late_train_pos
                AnimateRealtime.late_obj_pos (dec 70 1) 0 30 1)
      as (_ & _ & Hok).
    destruct Hok as (fi & step & Hfi & Hstep & _ & _ & _ & Hhead & _).
    + discriminate.
    + vm_compute. discriminate.
    + exists fi, step. split; [exact Hfi |]. split; [exact Hstep | exact Hhead].
Defined.

Lemma frames_in_range_witness :
  Forall (AnimateRealtime.in_range AnimateRealtime.late_train_pos
            AnimateRealtime.late_obj_pos
            (frame_indices late_time AnimateRealtime.late_train_pos
               AnimateRealtime.late_obj_pos (dec 70 1) 0 30 1))
         (seq 0 (length (frame_indices late_time AnimateRealtime.late_train_pos
                           AnimateRealtime.late_obj_pos (dec 70 1) 0 30 1))).
Proof.
  apply (frames_in_range late_time AnimateRealtime.late_train_pos
           AnimateRealtime.late_obj_pos (dec 70 1) 0 30 1); reflexivity.
Defined.

End Frames.

(** * What the animation displays *)

Section Display.

Import AnimateRealtime AnimateRealtimeSetup.

Context (np : Numpy).
Context (train_pos obj_pos : list Qc).
Context (angle_rad obj_x_position : Qc).
Context (frame_indices : list nat).

Local Abbreviation animate :=
  (animate np train_pos obj_pos angle_rad obj_x_position frame_indices).
Local Abbreviation play :=
  (play np train_pos obj_pos angle_rad obj_x_position frame_indices).
Local Abbreviation surface := (surface_y_at_ball_x np angle_rad obj_x_position).
Local Abbreviation landed := (landed np angle_rad obj_x_position frame_indices).

(** The closure variables that a run can reach: both unset, or the frame
    set and the height set to the surface. *)
Lemma play_closure calls :
  (play calls fresh).1 = fresh ∨ ∃ f, (play calls fresh).1 = landed f.
Proof.
  unfold AnimateRealtime.play.
  destruct (first_decisive np train_pos obj_pos angle_rad obj_x_position
              frame_indices calls)
    as [Hidle | (pre & f & post & -> & Hpre & Hf)].
  - left. by rewrite calls_idle.
  - right. exists f. by rewrite calls_first.
Qed.

(** X8.  Whatever frames were shown before, the height at which a frame
    displays the ball is never below the landing surface, and once the run
    is classified, in this frame or an earlier one, it is the height of
    the surface: the displayed ball is frozen there. *)
Theorem display_never_below calls f :
  let st := (play calls fresh).1 in
  let y := (animate f st).2 in
  surface ≤ y
  ∧ (ball_caught_at_frame (animate f st).1.1 ≠ None → y = surface).
Proof.
  cbv zeta. destruct (play_closure calls) as [-> | [f0 ->]].
  - unfold AnimateRealtime.animate; simpl.
    repeat case_decide; simpl; (split; [try done; qc_lra | done]).
  - rewrite animate_terminal by done. simpl. split; [apply Qcle_refl | done].
Qed.

(** X9.  The trail of the ball drawn at a frame has at most 50 points, one
    for each of the last rows up to the frame's, and none of them lies
    below the landing surface; no trail is drawn at row 0. *)
Theorem trail_above_surface calls idx :
  let st := (play calls fresh).1 in
  match trail_y_values np obj_pos angle_rad obj_x_position idx st with
  | Some ys =>
      (0 < idx)%nat ∧ length ys = Nat.min 50 (idx + 1) ∧
      Forall (fun y => surface ≤ y) ys
  | None => idx = 0%nat
  end.
Proof.
  cbv zeta. unfold trail_y_values.
  case_decide as Hlen; [| lia].
  split; [lia |]. split; [rewrite length_fmap, length_seq; lia |].
  apply Forall_fmap, Forall_forall. intros i _. simpl.
  destruct (play_closure calls) as [-> | [f0 ->]]; simpl;
    repeat case_decide; try apply Qcle_refl; qc_lra.
Qed.

End Display.

(** * The animation of a simulated run *)

Section SimulatedRun.

Import GenerateRandomScenarios AnimateRealtime.

Context (K : Consts) (np : Numpy).
Context (angle_deg ball_x ball_y_initial train_x_initial : Qc).


End SimulatedRun.

Section SimulatedRunWitness.

Import GenerateRandomScenarios AnimateRealtime.


End SimulatedRunWitness.

(** * The analysis of one file *)

Section Analysis.

Import AnalyzeComprehensiveLoop.

Lemma list_find_first (P : Qc → Prop) `{!∀ x, Decision (P x)} l i x :
  list_find P l = Some (i, x) ↔ first_index P l i ∧ x = l !!! i.
Proof.
  rewrite list_find_Some. unfold first_index. split.
  - intros (Hi & Hx & Hfirst).
    pose proof (lookup_lt_Some _ _ _ Hi).
    apply list_lookup_total_correct in Hi as Hx'. subst x.
    repeat split; try done. intros j Hj.
    apply (Hfirst j); [| done]. apply list_lookup_lookup_total_lt. lia.
  - intros ((Hi & Hx & Hfirst) & ->). split; [| split; [done |]].
    + by apply list_lookup_lookup_total_lt.
    + intros j y Hy Hj. apply list_lookup_total_correct in Hy as <-.
      by apply Hfirst.
Qed.

Lemma first_index_unique P l i j :
  first_index P l i → first_index P l j → i = j.
Proof.
  intros (_ & Hi & Hfi) (_ & Hj & Hfj).
  destruct (Nat.lt_trichotomy i j) as [H | [H | H]]; [| done |].
  - by destruct (Hfj i H).
  - by destruct (Hfi j H).
Qed.

(** In a strictly increasing array, cells compare as their indices. *)
Lemma sorted_lookup_le (l : list Qc) i j :
  StronglySorted Qclt l → (i < length l)%nat → (j < length l)%nat →
  l !!! i ≤ l !!! j ↔ (i ≤ j)%nat.
Proof.
  intros Hl Hi Hj.
  assert (Hlt : ∀ a b, (a < b)%nat → (b < length l)%nat → l !!! a < l !!! b).
  { clear i j Hi Hj. induction Hl as [|x l Hl IH Hx]; intros a b Hab Hb;
      [simpl in Hb; lia |].
    destruct b as [|b]; [lia |]. simpl in Hb.
    destruct a as [|a].
    - change (x < l !!! b). apply (proj1 (Forall_forall _ _) Hx).
      apply list_elem_of_lookup_total_2. lia.
    - change (l !!! a < l !!! b). apply IH; lia. }
  split.
  - intros Hle. destruct (decide (i ≤ j)%nat) as [|Hn]; [done |].
    assert (l !!! j < l !!! i) by (apply Hlt; lia).
    exfalso. by apply (Qclt_not_le (l !!! j) (l !!! i)).
  - intros Hij. destruct (decide (i = j)) as [-> | Hne]; [apply Qcle_refl |].
    apply Qclt_le_weak, Hlt; lia.
Qed.

Section OneFile.

Context (time train_x ball_y : list Qc).
Context (ball_x ball_landing_y : Qc).

Local Abbreviation analyse :=
  (analyse time train_x ball_y ball_x ball_landing_y).
Local Abbreviation arrived := (fun x : Qc => abs (x - ball_x) ≤ dec 2 1).
Local Abbreviation landed_at := (fun y : Qc => y ≤ ball_landing_y).

Lemma arrival_time_Some a :
  arrival_time time train_x ball_x = Some a ↔
  ∃ i, first_index arrived train_x i ∧ a = time !!! i.
Proof.
  unfold arrival_time.
  destruct (list_find _ train_x) as [[i x]|] eqn:E.
  - apply list_find_first in E as [Hi _]. split.
    + intros [= <-]. eauto.
    + intros (i' & Hi' & ->). by rewrite (first_index_unique _ _ _ _ Hi Hi').
  - split; [done |]. intros (i & Hi & _).
    assert (list_find arrived train_x = Some (i, train_x !!! i)) as E'
      by by apply list_find_first.
    by rewrite E in E'.
Qed.

Lemma landing_time_Some t :
  landing_time time ball_y ball_landing_y = Some t ↔
  ∃ j, first_index landed_at ball_y j ∧ t = time !!! j.
Proof.
  unfold landing_time.
  destruct (list_find _ ball_y) as [[i x]|] eqn:E.
  - apply list_find_first in E as [Hi _]. split.
    + intros [= <-]. eauto.
    + intros (i' & Hi' & ->). by rewrite (first_index_unique _ _ _ _ Hi Hi').
  - split; [done |]. intros (i & Hi & _).
    assert (list_find landed_at ball_y = Some (i, ball_y !!! i)) as E'
      by by apply list_find_first.
    by rewrite E in E'.
Qed.

(** X10.  For a file whose times increase strictly, the analysis counts
    the run as caught exactly when the train first comes within 2 m of
    the ball's column at a row that is not later than the row at which the
    ball first reaches the landing height, both rows existing. *)
Theorem analyse_caught_iff :
  StronglySorted Qclt time →
  length train_x = length time → length ball_y = length time →
  caught analyse = true ↔
  ∃ i j, (i ≤ j)%nat ∧ first_index arrived train_x i ∧
         first_index landed_at ball_y j.
Proof.
  intros Hsorted Hx Hy. unfold AnalyzeComprehensiveLoop.analyse.
  destruct (arrival_time time train_x ball_x) as [a|] eqn:Ea.
  - destruct (landing_time time ball_y ball_landing_y) as [l|] eqn:El.
    + apply arrival_time_Some in Ea as (i & Hi & ->).
      apply landing_time_Some in El as (j & Hj & ->).
      simpl. rewrite bool_decide_eq_true.
      assert (i < length time)%nat by (destruct Hi; lia).
      assert (j < length time)%nat by (destruct Hj; lia).
      rewrite sorted_lookup_le by done. split.
      * intros Hij. by exists i, j.
      * intros (i' & j' & Hij & Hi' & Hj').
        rewrite (first_index_unique _ _ _ _ Hi Hi').
        by rewrite (first_index_unique _ _ _ _ Hj Hj').
    + simpl. split; [done |]. intros (i & j & _ & _ & Hj).
      assert (landing_time time ball_y ball_landing_y = Some (time !!! j)) as E
        by (apply landing_time_Some; eauto).
      by rewrite El in E.
  - simpl. split; [by destruct (landing_time time ball_y ball_landing_y) |].
    intros (i & j & _ & Hi & _).
    assert (arrival_time time train_x ball_x = Some (time !!! i)) as E
      by (apply arrival_time_Some; eauto).
    by rewrite Ea in E.
Qed.

(** X11.  A run counted as caught has a time margin, the landing time
    minus the arrival time, and it is not negative; a run not counted as
    caught has none.  A run in whose data the ball never reaches the
    landing height is not counted as caught, wherever the train is. *)
Theorem analyse_margin :
  (caught analyse = true →
     ∃ a l, train_arrival_time analyse = Some a ∧
            ball_landing_time analyse = Some l ∧
            time_margin analyse = Some (l - a) ∧ 0 ≤ l - a)
  ∧ (caught analyse = false → time_margin analyse = None)
  ∧ (Forall (fun y => ball_landing_y < y) ball_y → caught analyse = false).
Proof.
  unfold AnalyzeComprehensiveLoop.analyse. split; [| split].
  - destruct (arrival_time _ _ _) as [a|], (landing_time _ _ _) as [l|];
      simpl; try done.
    intros Hc. exists a, l. rewrite Hc. repeat split.
    apply bool_decide_eq_true in Hc. qc_nra.
  - destruct (arrival_time _ _ _) as [a|], (landing_time _ _ _) as [l|];
      simpl; try done. by intros ->.
  - intros Hall.
    assert (landing_time time ball_y ball_landing_y = None) as ->.
    { unfold landing_time.
      destruct (list_find _ ball_y) as [[i y]|] eqn:E; [| done].
      apply list_find_Some in E as (Hi & Hy & _).
      pose proof (proj1 (Forall_forall _ _) Hall y
                    (list_elem_of_lookup_2 _ _ _ Hi)) as Hgt.
      simpl in Hgt. exfalso. by apply (Qclt_not_le _ _ Hgt). }
    by destruct (arrival_time _ _ _).
Qed.

End OneFile.

Lemma analyse_caught_iff_witness :
  caught (analyse demo_time demo_train_x demo_ball_y (dec 70 1) 0) = true ↔
  ∃ i j, (i ≤ j)%nat ∧
         first_index (fun x => abs (x - dec 70 1) ≤ dec 2 1) demo_train_x i ∧
         first_index (fun y => y ≤ 0) demo_ball_y j.
Proof.
  apply (analyse_caught_iff demo_time demo_train_x demo_ball_y (dec 70 1) 0).
  - repeat constructor; vm_compute; reflexivity.
  - reflexivity.
  - reflexivity.
Defined.

End Analysis.

(** * The loader of the analysis *)

Section ReadBack.

Import AnalyzeComprehensive.



(** X19.  A frame of exactly four columns is taken by position, whatever
    the names of its columns: the loader renames the four columns, in
    their order, [time], [train_x], [ball_y], [force], and raises
    nothing.  The loader tests for four columns only; a frame of any other
    width, eight columns or not, is read by the names of the full
    schema. *)
Theorem load_by_position df :
  length df = 4%nat →
  ∃ c1 c2 c3 c4,
    snd <$> df = [c1; c2; c3; c4]
    ∧ load df = Ok [ ("time"%string, c1); ("train_x"%string, c2);
                     ("ball_y"%string, c3); ("force"%string, c4) ].
Proof.
  intros Hlen.
  destruct df as [|[n1 c1] [|[n2 c2] [|[n3 c3] [|[n4 c4] [|]]]]]; try done.
  exists c1, c2, c3, c4. done.
Qed.

Lemma load_by_position_witness :
  ∃ c1 c2 c3 c4,
    snd <$> [("a"%string, [dec 1 1]); ("b"%string, [dec 2 1]);
             ("c"%string, [dec 3 1]); ("d"%string, [dec 4 1])]
      = [c1; c2; c3; c4]
    ∧ load [("a"%string, [dec 1 1]); ("b"%string, [dec 2 1]);
            ("c"%string, [dec 3 1]); ("d"%string, [dec 4 1])]
      = Ok [ ("time"%string, c1); ("train_x"%string, c2);
             ("ball_y"%string, c3); ("force"%string, c4) ].
Proof.
  apply (load_by_position
           [("a"%string, [dec 1 1]); ("b"%string, [dec 2 1]);
            ("c"%string, [dec 3 1]); ("d"%string, [dec 4 1])]).
  reflexivity.
Defined.

End ReadBack.

(** * The metrics of a scenario *)

Section Metrics.

Import AnalyzeRandomScenarios.

Lemma zip3_lookup a b c i :
  (i < length a)%nat → length b = length a → length c = length a →
  zip3 a b c !! i = Some (a !!! i, b !!! i, c !!! i).
Proof.
  revert b c i. induction a as [|x a IH]; intros [|y b] [|z c] i Hi Hb Hc;
    simpl in *; try lia.
  destruct i as [|i]; [done |].
  change (zip3 a b c !! i = Some (a !!! i, b !!! i, c !!! i)).
  apply IH; lia.
Qed.

Lemma zip3_length a b c :
  length b = length a → length c = length a →
  length (zip3 a b c) = length a.
Proof.
  revert b c. induction a as [|x a IH]; intros [|y b] [|z c] Hb Hc;
    simpl in *; try lia.
  rewrite IH; lia.
Qed.

Section OneScenario.

Context (np : Numpy) (angle ball_x : Qc).
Context (time train_pos ball_pos : list Qc).

Local Abbreviation landing := (ball_x * tan np (deg2rad np angle)).
Local Abbreviation near := (near ball_x landing train_pos ball_pos).
Local Abbreviation metrics :=
  (calculate_metrics np angle ball_x time train_pos ball_pos).

Lemma metrics_first_row :
  length train_pos = length time → length ball_pos = length time →
  (∀ t d, metrics = Some (t, d) ↔
     ∃ i, (i < length time)%nat ∧ t = time !!! i ∧
          d = abs (train_pos !!! i - ball_x) ∧ near i ∧
          ∀ j, (j < i)%nat → ¬ near j)
  ∧ (metrics = None ↔ ∀ i, (i < length time)%nat → ¬ near i).
Proof.
  intros Hp Hb.
  assert (Hsome : ∀ t d, metrics = Some (t, d) ↔
     ∃ i, (i < length time)%nat ∧ t = time !!! i ∧
          d = abs (train_pos !!! i - ball_x) ∧ near i ∧
          ∀ j, (j < i)%nat → ¬ near j).
  { intros t d. unfold calculate_metrics. rewrite find_catch_first.
    pose proof (zip3_length time train_pos ball_pos Hp Hb) as Hlen.
    split.
    - intros (pre & x & y & post & E & -> & Hy & Hd & Hpre).
      assert (Hi : (length pre < length time)%nat).
      { rewrite <- Hlen, E, length_app. simpl. lia. }
      assert (Hrow : zip3 time train_pos ball_pos !! length pre = Some (t, x, y)).
      { rewrite E. by apply list_lookup_middle. }
      rewrite zip3_lookup in Hrow by done. injection Hrow as <- <- <-.
      exists (length pre). repeat split; try done.
      intros j Hj [Hn1 Hn2].
      assert (Hj' : zip3 time train_pos ball_pos !! j = pre !! j).
      { rewrite E. by apply lookup_app_l. }
      rewrite zip3_lookup in Hj' by lia.
      pose proof (proj1 (Forall_lookup _ _) Hpre j _ (eq_sym Hj')) as Hno.
      simpl in Hno. by apply Hno.
    - intros (i & Hi & -> & -> & [Hy Hd] & Hfirst).
      pose proof (zip3_lookup time train_pos ball_pos i Hi Hp Hb) as Hrow.
      exists (take i (zip3 time train_pos ball_pos)), (train_pos !!! i),
        (ball_pos !!! i), (drop (S i) (zip3 time train_pos ball_pos)).
      split; [by rewrite take_drop_middle |].
      repeat split; try done.
      apply Forall_lookup. intros j [[tj xj] yj] Hj.
      apply lookup_take_Some in Hj as [Hj Hji].
      rewrite zip3_lookup in Hj by lia. injection Hj as <- <- <-.
      by apply Hfirst. }
  split; [done |]. split.
  - intros Hnone i Hi Hnear.
    assert (∃ i, (i < length time)%nat ∧ near i) as Hex by eauto.
    clear i Hi Hnear.
    assert (∃ i, (i < length time)%nat ∧ near i ∧ ∀ j, (j < i)%nat → ¬ near j)
      as (i & Hi & Hnear & Hfirst).
    { destruct Hex as (i & Hi & Hnear). revert Hi Hnear.
      assert (∀ j, Decision (near j)) as Hdec
        by (intros j; unfold AnalyzeRandomScenarios.near; apply _).
      induction i as [i IH] using lt_wf_ind. intros Hi Hnear.
      destruct (decide (Exists near (seq 0 i))) as [Hex | Hno].
      - apply Exists_exists in Hex as (j & Hj%elem_of_seq & Hnj).
        apply (IH j); [lia | lia | done].
      - exists i. split; [done |]. split; [done |]. intros j Hj Hnj.
        apply Hno, Exists_exists. exists j. split; [| done].
        apply elem_of_seq. lia. }
    assert (metrics = Some (time !!! i, abs (train_pos !!! i - ball_x))) as E
      by (apply Hsome; eauto 10).
    by rewrite Hnone in E.
  - intros Hall. destruct metrics as [[t d]|] eqn:E; [| done].
    destruct (proj1 (Hsome t d) eq_refl) as (i & Hi & _ & _ & Hnear & _).
    by destruct (Hall i Hi).
Qed.

(** X14.  For arrays of one length, [calculate_metrics] reports a catch
    exactly at the first row at which the ball is at most 1 m above the
    landing height and the train at most 3 m from the ball's column: the
    catch time is the time of that row and the catch distance the
    horizontal distance there; it reports no catch exactly when no row
    passes the test. *)
Theorem calculate_metrics_first :
  length train_pos = length time → length ball_pos = length time →
  (∀ t d, metrics = Some (t, d) ↔
     ∃ i, (i < length time)%nat ∧ t = time !!! i ∧
          d = abs (train_pos !!! i - ball_x) ∧ near i ∧
          ∀ j, (j < i)%nat → ¬ near j)
  ∧ (metrics = None ↔ ∀ i, (i < length time)%nat → ¬ near i).
Proof. exact metrics_first_row. Qed.

(** X15.  A run that the animation declares caught is a run that
    [calculate_metrics] counts as caught, for the same data, angle and
    ball position; the row of the reported catch is not later than the row
    of the frame at which the animation printed its message. *)
Theorem animation_catch_is_metrics_catch frame_indices calls :
  length train_pos = length time → length ball_pos = length time →
  Forall (AnimateRealtime.in_range train_pos ball_pos frame_indices) calls →
  AnimateRealtime.status_of
    (AnimateRealtime.play np train_pos ball_pos (deg2rad np angle) ball_x
       frame_indices calls AnimateRealtime.fresh).2
    = AnimateRealtime.CAUGHT →
  ∃ idx i,
    (AnimateRealtime.play np train_pos ball_pos (deg2rad np angle) ball_x
       frame_indices calls AnimateRealtime.fresh).2
      = [AnimateRealtime.BallCaught idx]
    ∧ (i ≤ idx)%nat
    ∧ metrics = Some (time !!! i, abs (train_pos !!! i - ball_x)).
Proof.
  intros Hp Hb Hrange Hcaught.
  unfold AnimateRealtime.play in *.
  destruct (first_decisive np train_pos ball_pos (deg2rad np angle) ball_x
              frame_indices calls)
    as [Hidle | (pre & f & post & -> & Hpre & Hf)].
  { rewrite calls_idle in Hcaught by done. done. }
  rewrite calls_first in Hcaught |- * by done. simpl in *.
  unfold AnimateRealtime.verdict in *.
  destruct (decide (AnimateRealtime.catch_test np train_pos ball_pos
                      (deg2rad np angle) ball_x frame_indices f))
    as [[Hy Hd] | Hno]; [| done].
  apply Forall_app in Hrange as [_ Hrange].
  apply Forall_cons_1 in Hrange as [(_ & Hidx & _) _].
  set (idx := frame_indices !!! f) in *. rewrite Hp in Hidx.
  assert (Hnear : near idx).
  { split; [exact Hy |]. revert Hd.
    generalize (abs (train_pos !!! idx - ball_x)). intros q Hq. qc_nra. }
  destruct metrics as [[t d]|] eqn:E.
  - destruct (proj1 (proj1 (metrics_first_row Hp Hb) t d) E)
      as (i & Hi & -> & -> & _ & Hfirst).
    exists idx, i. split; [done |]. split; [| done].
    destruct (decide (i ≤ idx)%nat) as [|Hgt]; [done |].
    destruct (Hfirst idx); [lia | done].
  - destruct (proj1 (proj2 (metrics_first_row Hp Hb)) E idx Hidx Hnear).
Qed.

End OneScenario.

Lemma calculate_metrics_first_witness :
  calculate_metrics numpy_flat 0 (dec 70 1) AnalyzeComprehensiveLoop.demo_time
    AnalyzeComprehensiveLoop.demo_train_x AnalyzeComprehensiveLoop.demo_ball_y
    = None ↔
  ∀ i, (i < length AnalyzeComprehensiveLoop.demo_time)%nat →
       ¬ near (dec 70 1) (dec 70 1 * tan numpy_flat (deg2rad numpy_flat 0))
           AnalyzeComprehensiveLoop.demo_train_x
           AnalyzeComprehensiveLoop.demo_ball_y i.
Proof.
  apply (calculate_metrics_first numpy_flat 0 (dec 70 1)
           AnalyzeComprehensiveLoop.demo_time
           AnalyzeComprehensiveLoop.demo_train_x
           AnalyzeComprehensiveLoop.demo_ball_y); reflexivity.
Defined.

Lemma animation_catch_is_metrics_catch_witness :
  ∃ idx i,
    (AnimateRealtime.play numpy_flat AnimateRealtime.late_train_pos
       AnimateRealtime.late_obj_pos (deg2rad numpy_flat 0) (dec 70 1)
       AnimateRealtime.late_frames [0; 1]%nat AnimateRealtime.fresh).2
      = [AnimateRealtime.BallCaught idx]
    ∧ (i ≤ idx)%nat
    ∧ calculate_metrics numpy_flat 0 (dec 70 1) AnimateRealtimeSetup.late_time
        AnimateRealtime.late_train_pos AnimateRealtime.late_obj_pos
      = Some (AnimateRealtimeSetup.late_time !!! i,
              abs (AnimateRealtime.late_train_pos !!! i - dec 70 1)).
Proof.
  apply (animation_catch_is_metrics_catch numpy_flat 0 (dec 70 1)
           AnimateRealtimeSetup.late_time AnimateRealtime.late_train_pos
           AnimateRealtime.late_obj_pos AnimateRealtime.late_frames
           [0; 1]%nat).
  - reflexivity.
  - reflexivity.
  - repeat constructor; vm_compute; lia.
  - vm_compute. reflexivity.
Defined.

End Metrics.

(** * The names of the scenario files *)

Section Names.

Import FileNames.

Local Open Scope string_scope.
Local Open Scope Qc_scope.

Lemma literal_app p s : literal p (p +:+ s) = Some s.
Proof. induction p as [|a p IH]; simpl; [done |]. by rewrite decide_True. Qed.

Lemma all_digits_app a b :
  all_digits (a +:+ b) = all_digits a && all_digits b.
Proof.
  induction a as [|c a IH]; simpl; [done |]. by rewrite IH, andb_assoc.
Qed.

Lemma all_digits_uint u : all_digits (NilEmpty.string_of_uint u) = true.
Proof. induction u; simpl; auto. Qed.

Lemma all_digits_zeros k : all_digits (zeros k) = true.
Proof. induction k; simpl; auto. Qed.

Lemma span_digits_app d r :
  all_digits d = true → no_digit_ahead r → span_digits (d +:+ r) = (d, r).
Proof.
  intros Hd Hr. induction d as [|a d IH]; simpl in *.
  - destruct r as [|b r]; simpl in *; [done |]. by rewrite Hr.
  - apply andb_true_iff in Hd as [-> Hd]. by rewrite IH.
Qed.

Lemma group_then_app p d rest :
  all_digits d = true → d ≠ "" → no_digit_ahead (p +:+ rest) →
  group_then p (d +:+ p +:+ rest) = Some (d, rest).
Proof.
  intros Hd Hne Hp. unfold group_then.
  rewrite span_digits_app by done.
  rewrite decide_False by done. by rewrite literal_app.
Qed.

Lemma digits_nonempty n : digits n ≠ "".
Proof.
  unfold digits. intros E.
  pose proof (NilEmpty.usu (Nat.to_uint n)) as Hu. rewrite E in Hu.
  simpl in Hu. injection Hu as Hu.
  pose proof (Unsigned.of_to n) as Hn. rewrite <- Hu in Hn. simpl in Hn.
  subst n. discriminate Hu.
Qed.

Lemma int_of_digits_digits n : int_of_digits (digits n) = Z.of_nat n.
Proof.
  unfold int_of_digits, digits.
  by rewrite NilEmpty.usu, Unsigned.of_to.
Qed.

Lemma int_of_digits_zeros k d :
  int_of_digits (zeros k +:+ d) = int_of_digits d.
Proof.
  induction k as [|k IH]; simpl; [done |].
  rewrite <- IH. unfold int_of_digits. simpl.
  by destruct (NilEmpty.uint_of_string (zeros k +:+ d)).
Qed.

(** The text of a number that is not negative: digits only, one at
    least, and read back as the number. *)
Lemma format_d_nonneg width z :
  (0 ≤ z)%Z →
  all_digits (format_d width z) = true ∧ format_d width z ≠ "" ∧
  int_of_digits (format_d width z) = z.
Proof.
  intros Hz. unfold format_d. rewrite decide_False by lia.
  split; [| split].
  - rewrite all_digits_app, all_digits_zeros. apply all_digits_uint.
  - intros E. apply (digits_nonempty (Z.to_nat z)).
    destruct (zeros _); [done | discriminate E].
  - rewrite int_of_digits_zeros, int_of_digits_digits. lia.
Qed.

Lemma parse_filename_here s ps :
  match_here s = Some ps → parse_filename s = Some ps.
Proof. intros H. destruct s; cbn -[match_here]; by rewrite H. Qed.

Lemma int_nonneg q : 0 ≤ q → (0 ≤ int q)%Z.
Proof. intros Hq. rewrite int_floor by done. by apply (Qfloor_resp_le 0). Qed.

(** X16.  For a scenario number and parameters that are not negative,
    [parse_filename] applied to the name under which [simulate_scenario]
    stores the scenario returns the scenario number and the integer parts
    of the angle, of the ball's position and height and of the train's
    position: the analysis sees the parameters truncated to integers. *)
Theorem parse_filename_round_trip scenario_num angle_deg ball_x
    ball_y_initial train_x_initial :
  (0 ≤ scenario_num)%Z → 0 ≤ angle_deg → 0 ≤ ball_x →
  0 ≤ ball_y_initial → 0 ≤ train_x_initial →
  parse_filename
    (filename scenario_num angle_deg ball_x ball_y_initial train_x_initial)
  = Some {| scenario := scenario_num; angle := int angle_deg;
            FileNames.ball_x := int ball_x;
            ball_y := int ball_y_initial;
            train_x := int train_x_initial |}.
Proof.
  intros Hn Ha Hx Hy Ht.
  destruct (format_d_nonneg 2 scenario_num Hn) as (D1 & N1 & I1).
  destruct (format_d_nonneg 2 (int angle_deg) (int_nonneg _ Ha))
    as (D2 & N2 & I2).
  destruct (format_d_nonneg 3 (int ball_x) (int_nonneg _ Hx))
    as (D3 & N3 & I3).
  destruct (format_d_nonneg 3 (int ball_y_initial) (int_nonneg _ Hy))
    as (D4 & N4 & I4).
  destruct (format_d_nonneg 3 (int train_x_initial) (int_nonneg _ Ht))
    as (D5 & N5 & I5).
  apply parse_filename_here. unfold match_here, filename.
  rewrite literal_app.
  rewrite (group_then_app "_A") by done.
  rewrite (group_then_app "_BallX") by done.
  rewrite (group_then_app "Y") by done.
  rewrite (group_then_app "_TrainX") by done.
  rewrite (group_then_app "" _ ".csv") by done.
  by rewrite I1, I2, I3, I4, I5.
Qed.

Lemma parse_filename_round_trip_witness :
  parse_filename (filename 1 (dec 225 10) (dec 705 10) (dec 100 1) (dec 10 1))
  = Some {| scenario := 1; angle := 22; FileNames.ball_x := 70;
            ball_y := 100; train_x := 10 |}.
Proof.
  apply (parse_filename_round_trip 1 (dec 225 10) (dec 705 10) (dec 100 1)
           (dec 10 1)).
  - lia.
  - vm_compute. discriminate.
  - vm_compute. discriminate.
  - vm_compute. discriminate.
  - vm_compute. discriminate.
Defined.

End Names.
